(** * IPv6 packet forwarding (net/devif/ipv6_forward.c)

    A shallow embedding of [ipv6_packet_conversion], [ipv6_hdrsize],
    [ipv6_dev_forward], [ipv6_dropstats] and [ipv6_forward], and the
    properties of the forwarding decision proved over it.

    Integers are [Z] with the C conversions written out.  Memory is flat and
    byte addressed: the frame is reached only through the pointer [ipv6], so
    the pointer arithmetic of the source is arithmetic on addresses.  The
    functions run in a state monad over [world] that also collects the calls
    made to the buffer pool and to the forwarding paths. *)

From Stdlib Require Import ZArith List Bool Lia.
Import ListNotations.
Local Open Scope Z_scope.

(** ** Constants of the headers the file includes *)

(** errno.h *)
Definition OK : Z := 0.
Definition ENOMEM : Z := 12.
Definition ENOSYS : Z := 38.
Definition EPROTONOSUPPORT : Z := 93.
Definition EPFNOSUPPORT : Z := 96.
Definition ENETUNREACH : Z := 101.

(** nuttx/net/ip.h, udp.h, icmpv6.h *)
Definition IP_PROTO_TCP : Z := 6.
Definition IP_PROTO_UDP : Z := 17.
Definition IP_PROTO_ICMP6 : Z := 58.
Definition IPv6_HDRLEN : Z := 40.
Definition UDP_HDRLEN : Z := 8.
Definition ICMPv6_HDRLEN : Z := 4.

(** Byte offsets of the fields read: [struct ipv6_hdr_s] is vtc, tcf, flow
    (2), len (2), proto, ttl, srcipaddr (16), destipaddr (16);
    [struct tcp_hdr_s] is srcport (2), destport (2), seqno (4), ackno (4),
    tcpoffset, flags, ... *)
Definition ipv6_hdr_proto : Z := 6.
Definition ipv6_hdr_srcipaddr : Z := 8.
Definition ipv6_hdr_destipaddr : Z := 24.
Definition tcp_hdr_tcpoffset : Z := 12.

(** [enum net_lltype_e]; the code compares against [NET_LL_IEEE802154] only. *)
Inductive net_lltype_e :=
| NET_LL_ETHERNET
| NET_LL_LOOPBACK
| NET_LL_SLIP
| NET_LL_TUN
| NET_LL_IEEE802154.

Definition lltype_eqb (a b : net_lltype_e) : bool :=
  match a, b with
  | NET_LL_ETHERNET, NET_LL_ETHERNET
  | NET_LL_LOOPBACK, NET_LL_LOOPBACK
  | NET_LL_SLIP, NET_LL_SLIP
  | NET_LL_TUN, NET_LL_TUN
  | NET_LL_IEEE802154, NET_LL_IEEE802154 => true
  | _, _ => false
  end.

(** ** Build configuration and target *)

(** The preprocessor symbols the file tests, one flag each. *)
Record config := {
  CONFIG_NET_TCP : bool;
  CONFIG_NET_UDP : bool;
  CONFIG_NET_ICMPv6 : bool;
  CONFIG_NET_6LOWPAN : bool;
  CONFIG_NET_MULTILINK : bool;
  CONFIG_NETDEV_MULTINIC : bool;
  CONFIG_NET_STATISTICS : bool
}.

(** The file is read with its slips of syntax set right (the two [#endif]
    of lines 67-73, [struct] at line 79, the semicolons of lines 283 and
    287); they leave one reading of each function body.  With
    [CONFIG_NETDEV_MULTINIC] the call of [ipv6_packet_conversion] has three
    arguments, which only the function of the [CONFIG_NET_6LOWPAN] build
    takes, so the function is what the model calls there. *)

(** What the C implementation fixes: the size of [uintptr_t] in bytes, the
    widths of [unsigned int] and of [net_stats_t] in bits, and the payload
    capacity of one I/O buffer. *)
Record target := {
  sizeof_uintptr_t : Z;
  UINT_WIDTH : Z;
  NET_STATS_WIDTH : Z;
  CONFIG_IOB_BUFSIZE : Z
}.

(** ** State *)

Definition devptr := nat.
Definition net_ipv6addr_t := list Z.

(** The fields of [struct net_driver_s] the file touches. *)
Record net_driver_s := {
  d_lltype : net_lltype_e;
  d_len : Z
}.

(** The drop counters of [g_netstats]. *)
Record net_stats_s := {
  ipv6_drop : Z;
  icmpv6_drop : Z;
  udp_drop : Z;
  tcp_drop : Z
}.

(** A chain of I/O buffers: the bytes held by each buffer, head first. *)
Definition iob_chain := list (list Z).

Record world := mkWorld {
  netdevs : devptr -> net_driver_s;
  ram : Z -> Z;
  g_netstats : net_stats_s;
  iob_nfree : nat;
  iob_inuse : nat
}.

(** Calls that leave the file, and the passage through [ipv6_dropstats]. *)
Inductive call :=
| Call_sixlowpan_tcp_send
| Call_sixlowpan_udp_send
| Call_iob_tryalloc (throttled : bool)
| Call_iob_trycopyin (src len offset : Z)
| Call_iob_free_chain (iob : option iob_chain)
| Call_tcp_ipv6_forward (iob : option iob_chain)
| Call_ipv6_dev_forward (iob : option iob_chain)
| Call_ipv6_dropstats.

Definition is_tryalloc (c : call) : bool :=
  match c with Call_iob_tryalloc _ => true | _ => false end.

Definition is_free_chain (c : call) : bool :=
  match c with Call_iob_free_chain _ => true | _ => false end.

Definition is_dropstats (c : call) : bool :=
  match c with Call_ipv6_dropstats => true | _ => false end.

Definition count_calls (p : call -> bool) (t : list call) : nat :=
  length (filter p t).

(** ** The monad: state passing over [world], with the calls made *)

Definition M (A : Type) : Type := world -> A * world * list call.

Definition pure {A} (a : A) : M A := fun w => (a, w, []).

Definition bind {A B} (m : M A) (f : A -> M B) : M B :=
  fun w =>
    let '(a, w1, t1) := m w in
    let '(b, w2, t2) := f a w1 in
    (b, w2, t1 ++ t2).

Definition gets {A} (f : world -> A) : M A := fun w => (f w, w, []).
Definition modify (f : world -> world) : M unit := fun w => (tt, f w, []).
Definition emit (c : call) : M unit := fun w => (tt, w, [c]).

Notation "x <- m ;; k" := (bind m (fun x => k))
  (at level 61, m at next level, right associativity).
Notation "m ;;; k" := (bind m (fun _ => k))
  (at level 61, right associativity).

Definition result {A} (r : A * world * list call) : A := fst (fst r).
Definition final {A} (r : A * world * list call) : world := snd (fst r).
Definition calls {A} (r : A * world * list call) : list call := snd r.

(** ** Memory and field access *)

Definition read8 (mem : Z -> Z) (a : Z) : Z := Z.land (mem a) 255.

Definition read_bytes (mem : Z -> Z) (a : Z) (n : Z) : list Z :=
  map (fun i => read8 mem (a + Z.of_nat i)) (seq 0 (Z.to_nat n)).

Definition ipv6_proto (mem : Z -> Z) (ipv6 : Z) : Z :=
  read8 mem (ipv6 + ipv6_hdr_proto).
Definition ipv6_srcipaddr (mem : Z -> Z) (ipv6 : Z) : net_ipv6addr_t :=
  read_bytes mem (ipv6 + ipv6_hdr_srcipaddr) 16.
Definition ipv6_destipaddr (mem : Z -> Z) (ipv6 : Z) : net_ipv6addr_t :=
  read_bytes mem (ipv6 + ipv6_hdr_destipaddr) 16.

Definition get_d_len (dev : devptr) : M Z := gets (fun w => d_len (netdevs w dev)).

Definition store_d_len (dev : devptr) (v : Z) (w : world) : world :=
  mkWorld
    (fun p => if Nat.eqb p dev
              then {| d_lltype := d_lltype (netdevs w p); d_len := v |}
              else netdevs w p)
    (ram w) (g_netstats w) (iob_nfree w) (iob_inuse w).

Definition set_d_len (dev : devptr) (v : Z) : M unit := modify (store_d_len dev v).

Definition store_netstats (s : net_stats_s) (w : world) : world :=
  mkWorld (netdevs w) (ram w) s (iob_nfree w) (iob_inuse w).

Definition store_pool (nfree inuse : nat) (w : world) : world :=
  mkWorld (netdevs w) (ram w) (g_netstats w) nfree inuse.

(** ** Collaborators outside the file *)

(** The resolver (with its two prototypes), the 6LoWPAN senders and the TCP
    forwarding path are taken as they come: any function of the state. *)
Record collaborators := {
  netdev_findby_ipv6addr_multinic :
    world -> net_ipv6addr_t -> net_ipv6addr_t -> option devptr;
  netdev_findby_ipv6addr : world -> net_ipv6addr_t -> option devptr;
  sixlowpan_tcp_send : devptr -> devptr -> Z -> world -> world;
  sixlowpan_udp_send : devptr -> devptr -> Z -> world -> world;
  tcp_ipv6_forward : devptr -> Z -> option iob_chain -> world -> Z * world
}.

(** Modelled from the spec: [tcp_ipv6_forward] is not among the sources; the
    stream forwarding path is required to report the unsupported forwarding
    path and takes no ownership of the chain. *)
Definition tcp_ipv6_forward_unsupported
    (dev : devptr) (ipv6 : Z) (iob : option iob_chain) (w : world) : Z * world :=
  (- ENOSYS, w).

Section Forward.

Variable T : target.
Variable C : collaborators.
Variable cfg : config.

(** *** C conversions *)

Definition to_uint (x : Z) : Z := x mod 2 ^ UINT_WIDTH T.
Definition to_uint16 (x : Z) : Z := x mod 2 ^ 16.
Definition to_int (x : Z) : Z :=
  if x <? 2 ^ (UINT_WIDTH T - 1) then x else x - 2 ^ UINT_WIDTH T.

(** [drop++] on a [net_stats_t]. *)
Definition stat_incr (x : Z) : Z := (x + 1) mod 2 ^ NET_STATS_WIDTH T.

(** *** The I/O buffer pool *)

(** Modelled from the spec: [iob_tryalloc] is not among the sources; the
    non-blocking allocation of one buffer-chain head takes a free buffer or
    yields none, and never waits. *)
Definition iob_tryalloc (throttled : bool) : M (option iob_chain) :=
  emit (Call_iob_tryalloc throttled) ;;;
  fun w =>
    match iob_nfree w with
    | O => (None, w, [])
    | S n => (Some [[]], store_pool n (S (iob_inuse w)) w, [])
    end.

(** The buffers a copy of [len] bytes at [src] fills, given [nfree] more
    buffers to take: one buffer per [CONFIG_IOB_BUFSIZE] bytes, and
    [-ENOMEM] with the chain filled so far when the pool runs out. *)
Fixpoint iob_copyin_loop (nfree : nat) (mem : Z -> Z) (src len : Z)
  : Z * iob_chain :=
  let n := Z.min len (CONFIG_IOB_BUFSIZE T) in
  let seg := read_bytes mem src n in
  if len <=? CONFIG_IOB_BUFSIZE T then (OK, [seg])
  else
    match nfree with
    | O => (- ENOMEM, [seg])
    | S k =>
        let '(r, rest) := iob_copyin_loop k mem (src + n) (len - n) in
        (r, seg :: rest)
    end.

(** Modelled from the spec: [iob_trycopyin] is not among the sources; the
    non-blocking copy-in fills the chain from its head [iob], which is the
    empty buffer just allocated (offset 0 is the only one used), taking
    further buffers without waiting, and fails with the partly filled chain
    left to the caller. *)
Definition iob_trycopyin (iob : iob_chain) (src len offset : Z)
  : M (Z * iob_chain) :=
  emit (Call_iob_trycopyin src len offset) ;;;
  fun w =>
    let '(r, chain) := iob_copyin_loop (iob_nfree w) (ram w) src len in
    let extra := (length chain - 1)%nat in
    ((r, chain),
     store_pool (iob_nfree w - extra)%nat (iob_inuse w + extra)%nat w, []).

Definition release_chain (iob : option iob_chain) (w : world) : world :=
  match iob with
  | None => w
  | Some chain =>
      store_pool (iob_nfree w + length chain)%nat
                 (iob_inuse w - length chain)%nat w
  end.

(** Modelled from the spec: [iob_free_chain] is not among the sources; the
    release returns every buffer of the chain and is safe on a null chain. *)
Definition iob_free_chain (iob : option iob_chain) : M unit :=
  emit (Call_iob_free_chain iob) ;;;
  modify (release_chain iob).

(** *** ipv6_packet_conversion (lines 99-145) *)

(** The link type test of line 106, which only [CONFIG_NET_MULTILINK]
    compiles in. *)
Definition needs_conversion (lltype : net_lltype_e) : bool :=
  if CONFIG_NET_MULTILINK cfg then lltype_eqb lltype NET_LL_IEEE802154
  else true.

(** [g_netstats.ipv6.drop++] (line 136). *)
Definition count_ipv6_drop (w : world) : world :=
  let s := g_netstats w in
  store_netstats
    {| ipv6_drop := stat_incr (ipv6_drop s);
       icmpv6_drop := icmpv6_drop s;
       udp_drop := udp_drop s;
       tcp_drop := tcp_drop s |} w.

(** The condition of lines 106 and 108. *)
Definition conversion_applies (dev fwddev : devptr) (w : world) : bool :=
  (0 <? d_len (netdevs w dev)) && needs_conversion (d_lltype (netdevs w fwddev)).

Definition ipv6_packet_conversion (dev fwddev : devptr) (ipv6 : Z) : M Z :=
  applies <- gets (conversion_applies dev fwddev) ;;
  proto <- gets (fun w => ipv6_proto (ram w) ipv6) ;;
  if applies then
    (if CONFIG_NET_TCP cfg && (proto =? IP_PROTO_TCP) then
       emit Call_sixlowpan_tcp_send ;;;
       modify (sixlowpan_tcp_send C dev fwddev ipv6)
     else if CONFIG_NET_UDP cfg && (proto =? IP_PROTO_UDP) then
       emit Call_sixlowpan_udp_send ;;;
       modify (sixlowpan_udp_send C dev fwddev ipv6)
     else if CONFIG_NET_STATISTICS cfg then modify count_ipv6_drop
     else pure tt) ;;;
    set_d_len dev 0 ;;;
    pure OK
  else pure (- EPFNOSUPPORT).

(** *** ipv6_hdrsize (lines 167-206) *)

(** In the TCP case the header pointer is cast to [uintptr_t *] before
    [IPv6_HDRLEN] is added, so the addition counts in units of
    [sizeof(uintptr_t)]. *)
Definition ipv6_hdrsize (mem : Z -> Z) (ipv6 : Z) : Z :=
  let proto := ipv6_proto mem ipv6 in
  if CONFIG_NET_TCP cfg && (proto =? IP_PROTO_TCP) then
    let tcp := ipv6 + IPv6_HDRLEN * sizeof_uintptr_t T in
    let tcpoffset := read8 mem (tcp + tcp_hdr_tcpoffset) in
    let tcpsize := to_uint (Z.shiftl (Z.shiftr (to_uint16 tcpoffset) 4) 2) in
    to_int (to_uint (IPv6_HDRLEN + tcpsize))
  else if CONFIG_NET_UDP cfg && (proto =? IP_PROTO_UDP) then
    IPv6_HDRLEN + UDP_HDRLEN
  else if CONFIG_NET_ICMPv6 cfg && (proto =? IP_PROTO_ICMP6) then
    IPv6_HDRLEN + ICMPv6_HDRLEN
  else - EPROTONOSUPPORT.

(** *** ipv6_dev_forward (lines 239-262) *)

Definition ipv6_dev_forward (dev : devptr) (ipv6 : Z) (iob : option iob_chain)
  : M Z :=
  emit (Call_ipv6_dev_forward iob) ;;;
  pure (- ENOSYS).

(** *** ipv6_dropstats (lines 281-291) *)

(** The four increments are unconditional; without [CONFIG_NET_STATISTICS]
    the name is an empty macro. *)
Definition count_drops (w : world) : world :=
  let s := g_netstats w in
  store_netstats
    {| ipv6_drop := stat_incr (ipv6_drop s);
       icmpv6_drop := stat_incr (icmpv6_drop s);
       udp_drop := stat_incr (udp_drop s);
       tcp_drop := stat_incr (tcp_drop s) |} w.

Definition ipv6_dropstats (ipv6 : Z) : M unit :=
  emit Call_ipv6_dropstats ;;;
  if CONFIG_NET_STATISTICS cfg then modify count_drops else pure tt.

(** *** ipv6_forward (lines 326-484) *)

(** The label [drop] (lines 429-432).  [ret] is the local variable as it
    stands on arrival; the return statement does not use it. *)
Definition drop (dev : devptr) (ipv6 : Z) (ret : Z) : M Z :=
  ipv6_dropstats ipv6 ;;;
  set_d_len dev 0 ;;;
  pure (- ENOSYS).

(** The state [drop] leaves behind. *)
Definition dropped (dev : devptr) (w : world) : world :=
  store_d_len dev 0 (if CONFIG_NET_STATISTICS cfg then count_drops w else w).

(** The label [errout_with_iob] (lines 426-427), falling into [drop]. *)
Definition errout_with_iob (dev : devptr) (ipv6 : Z) (ret : Z)
    (iob : option iob_chain) : M Z :=
  iob_free_chain iob ;;;
  drop dev ipv6 ret.

(** Lines 409-424, falling into [errout_with_iob]. *)
Definition forward_dispatch (dev : devptr) (ipv6 : Z) (iob : option iob_chain)
  : M Z :=
  proto <- gets (fun w => ipv6_proto (ram w) ipv6) ;;
  ret <- (if proto =? IP_PROTO_TCP then
            emit (Call_tcp_ipv6_forward iob) ;;;
            (fun w => let '(r, w') := tcp_ipv6_forward C dev ipv6 iob w in
                      (r, w', []))
          else ipv6_dev_forward dev ipv6 iob) ;;
  if 0 <=? ret then
    set_d_len dev 0 ;;;
    pure OK
  else errout_with_iob dev ipv6 ret iob.

(** Lines 362-407: the body entered when the conversion returned [ret < 0]
    on the way to another device. *)
Definition forward_other_device (dev : devptr) (ipv6 : Z) (ret : Z) : M Z :=
  hdrsize <- gets (fun w => ipv6_hdrsize (ram w) ipv6) ;;
  if hdrsize <? 0 then drop dev ipv6 ret
  else
    let payload := ipv6 + hdrsize in
    dlen <- get_d_len dev ;;
    let paysize := to_uint (dlen - hdrsize) in
    if 0 <? paysize then
      iob <- iob_tryalloc false ;;
      match iob with
      | None => errout_with_iob dev ipv6 (- ENOMEM) None
      | Some iob0 =>
          rc <- iob_trycopyin iob0 payload paysize 0 ;;
          let '(ret', iob1) := rc in
          if ret' <? 0 then errout_with_iob dev ipv6 ret' (Some iob1)
          else forward_dispatch dev ipv6 (Some iob1)
      end
    else forward_dispatch dev ipv6 None.

(** Lines 339-343: the search for the forwarding device. *)
Definition find_fwddev (ipv6 : Z) (w : world) : option devptr :=
  if CONFIG_NETDEV_MULTINIC cfg then
    netdev_findby_ipv6addr_multinic C w
      (ipv6_srcipaddr (ram w) ipv6) (ipv6_destipaddr (ram w) ipv6)
  else netdev_findby_ipv6addr C w (ipv6_destipaddr (ram w) ipv6).

(** The device the conversion is asked about (lines 359 and 448). *)
Definition egress (dev fwddev : devptr) : devptr :=
  if CONFIG_NETDEV_MULTINIC cfg && negb (Nat.eqb fwddev dev) then fwddev
  else dev.

Definition ipv6_forward (dev : devptr) (ipv6 : Z) : M Z :=
  fwddev <- gets (find_fwddev ipv6) ;;
  match fwddev with
  | None => pure (- ENETUNREACH)
  | Some fwddev =>
      if CONFIG_NETDEV_MULTINIC cfg && negb (Nat.eqb fwddev dev) then
        ret <- ipv6_packet_conversion dev fwddev ipv6 ;;
        if ret <? 0 then forward_other_device dev ipv6 ret
        else pure OK
      else if CONFIG_NET_6LOWPAN cfg then
        ret <- ipv6_packet_conversion dev dev ipv6 ;;
        if ret <? 0 then pure (- ENOSYS)
        else pure OK
      else pure (- ENOSYS)
  end.

End Forward.

(** ** Concrete targets, configurations and frames *)

(** A 32-bit target with 16-bit statistics counters and 196-byte buffers. *)
Definition target32 : target :=
  {| sizeof_uintptr_t := 4; UINT_WIDTH := 32; NET_STATS_WIDTH := 16;
     CONFIG_IOB_BUFSIZE := 196 |}.

Definition cfg_multinic : config :=
  {| CONFIG_NET_TCP := true; CONFIG_NET_UDP := true; CONFIG_NET_ICMPv6 := true;
     CONFIG_NET_6LOWPAN := true; CONFIG_NET_MULTILINK := true;
     CONFIG_NETDEV_MULTINIC := true; CONFIG_NET_STATISTICS := true |}.

Definition cfg_single : config :=
  {| CONFIG_NET_TCP := true; CONFIG_NET_UDP := true; CONFIG_NET_ICMPv6 := true;
     CONFIG_NET_6LOWPAN := true; CONFIG_NET_MULTILINK := true;
     CONFIG_NETDEV_MULTINIC := false; CONFIG_NET_STATISTICS := true |}.

(** A resolver that answers [fwddev] for every address, senders that leave
    the state alone, and the TCP forwarding path of the spec. *)
Definition resolving (fwddev : option devptr) : collaborators :=
  {| netdev_findby_ipv6addr_multinic := fun _ _ _ => fwddev;
     netdev_findby_ipv6addr := fun _ _ => fwddev;
     sixlowpan_tcp_send := fun _ _ _ w => w;
     sixlowpan_udp_send := fun _ _ _ w => w;
     tcp_ipv6_forward := tcp_ipv6_forward_unsupported |}.

(** Memory holding [bytes] from address 0. *)
Definition ram_of (bytes : list Z) : Z -> Z :=
  fun a => if a <? 0 then 0 else nth (Z.to_nat a) bytes 0.

(** A frame: the IPv6 header with its [proto], a transport header of 20
    bytes whose byte 12 is [off], and the payload. *)
Definition frame (proto off : Z) (payload : list Z) : list Z :=
  repeat 0 6 ++ [proto] ++ repeat 0 33 ++
  repeat 0 12 ++ [off] ++ repeat 0 7 ++ payload.

(** Device 0 holds the frame; every device has the link type [ll], except
    device 1, which has [ll1]. *)
Definition world_of (ll ll1 : net_lltype_e) (bytes : list Z) (nfree : nat)
  : world :=
  {| netdevs := fun p =>
       match p with
       | O => {| d_lltype := ll; d_len := Z.of_nat (length bytes) |}
       | S O => {| d_lltype := ll1; d_len := 0 |}
       | _ => {| d_lltype := ll; d_len := 0 |}
       end;
     ram := ram_of bytes;
     g_netstats :=
       {| ipv6_drop := 0; icmpv6_drop := 0; udp_drop := 0; tcp_drop := 0 |};
     iob_nfree := nfree;
     iob_inuse := 0 |}.

(** Frames of 63 bytes (UDP, ICMPv6, and protocol 59, which no case of the
    classifier names), a TCP frame of 200 bytes whose header length field
    says 5 words, and a UDP frame cut after its headers and after its IPv6
    header. *)
Definition udp_frame : list Z := frame IP_PROTO_UDP 0 [1; 2; 3].
Definition icmpv6_frame : list Z := frame IP_PROTO_ICMP6 0 [1; 2; 3].
Definition unknown_frame : list Z := frame 59 0 [1; 2; 3].
Definition tcp_frame : list Z := frame IP_PROTO_TCP 80 (repeat 255 140).
Definition udp_headers_only : list Z := firstn 48 udp_frame.
Definition udp_truncated : list Z := firstn 40 udp_frame.

Definition ethernet_world (bytes : list Z) (nfree : nat) : world :=
  world_of NET_LL_ETHERNET NET_LL_ETHERNET bytes nfree.

(** Device 1 is an IEEE 802.15.4 radio. *)
Definition lowpan_world (bytes : list Z) (nfree : nat) : world :=
  world_of NET_LL_ETHERNET NET_LL_IEEE802154 bytes nfree.

(** ** Notions used by the statements *)

(** The TCP forwarding path leaves the state alone when it fails. *)
Definition tcp_forward_fails_clean (C : collaborators) : Prop :=
  forall (dev : devptr) (ipv6 : Z) (iob : option iob_chain) (w : world),
    fst (tcp_ipv6_forward C dev ipv6 iob w) < 0 ->
    snd (tcp_ipv6_forward C dev ipv6 iob w) = w.

(** The call lines 411-418 make for the frame at [ipv6]. *)
Definition forward_call (w : world) (ipv6 : Z) (iob : option iob_chain) : call :=
  if ipv6_proto (ram w) ipv6 =? IP_PROTO_TCP
  then Call_tcp_ipv6_forward iob else Call_ipv6_dev_forward iob.

(** Kinds of calls, for counting. *)
Definition is_trycopyin (c : call) : bool :=
  match c with Call_iob_trycopyin _ _ _ => true | _ => false end.

Definition is_forward_path (c : call) : bool :=
  match c with
  | Call_tcp_ipv6_forward _ | Call_ipv6_dev_forward _ => true
  | _ => false
  end.

Definition is_sender (c : call) : bool :=
  match c with
  | Call_sixlowpan_tcp_send | Call_sixlowpan_udp_send => true
  | _ => false
  end.

(** Collaborators as [resolving], but with a TCP forwarding path that
    accepts every frame. *)
Definition accepting (fwddev : option devptr) : collaborators :=
  {| netdev_findby_ipv6addr_multinic := fun _ _ _ => fwddev;
     netdev_findby_ipv6addr := fun _ _ => fwddev;
     sixlowpan_tcp_send := fun _ _ _ w => w;
     sixlowpan_udp_send := fun _ _ _ w => w;
     tcp_ipv6_forward := fun _ _ _ w => (OK, w) |}.

(** The multi-device configuration without UDP. *)
Definition cfg_no_udp : config :=
  {| CONFIG_NET_TCP := true; CONFIG_NET_UDP := false; CONFIG_NET_ICMPv6 := true;
     CONFIG_NET_6LOWPAN := true; CONFIG_NET_MULTILINK := true;
     CONFIG_NETDEV_MULTINIC := true; CONFIG_NET_STATISTICS := true |}.

(** A UDP frame with 400 bytes after its 60 bytes of headers. *)
Definition udp_long_frame : list Z := frame IP_PROTO_UDP 0 (repeat 7 400).

(** A device pointer equals itself. *)
Ltac eqb_self :=
  try match goal with
      | H : (?x =? ?x)%nat = false |- _ =>
          rewrite Nat.eqb_refl in H; discriminate H
      end;
  rewrite ?Nat.eqb_refl.

Ltac unfold_model :=
  unfold ipv6_forward, forward_other_device, forward_dispatch, errout_with_iob,
    drop, dropped, ipv6_dropstats, ipv6_dev_forward, ipv6_packet_conversion,
    iob_free_chain, iob_trycopyin, iob_tryalloc, set_d_len, get_d_len,
    bind, gets, modify, emit, pure, result, final, calls.

(** Case analysis on whatever a run still branches on. *)
Ltac split_run :=
  repeat match goal with
  | |- context [match ?x with _ => _ end] =>
      lazymatch x with
      | context [match _ with _ => _ end] => fail
      | _ => destruct x eqn:?
      end; simpl
  end.

(** ** Arithmetic of the C conversions *)

Lemma read8_range (mem : Z -> Z) (a : Z) : 0 <= read8 mem a <= 255.
Proof.
  unfold read8.
  assert (E : Z.land (mem a) 255 = mem a mod 256)
    by (change 255 with (Z.ones 8); apply Z.land_ones; lia).
  rewrite E. pose proof (Z.mod_pos_bound (mem a) 256 eq_refl). lia.
Qed.

Lemma pow2_width_lower (n k : Z) : 0 <= k <= n -> 2 ^ k <= 2 ^ n.
Proof. intros H. apply Z.pow_le_mono_r; lia. Qed.

Section Conversions.

Variable T : target.
Hypothesis width_ok : 16 <= UINT_WIDTH T.

Lemma to_uint_small (x : Z) : 0 <= x < 2 ^ 16 -> to_uint T x = x.
Proof.
  intros H. unfold to_uint. apply Z.mod_small.
  pose proof (pow2_width_lower (UINT_WIDTH T) 16). lia.
Qed.

Lemma to_int_small (x : Z) : 0 <= x < 2 ^ 15 -> to_int T x = x.
Proof.
  intros H. unfold to_int.
  pose proof (pow2_width_lower (UINT_WIDTH T - 1) 15).
  destruct (Z.ltb_spec x (2 ^ (UINT_WIDTH T - 1))); lia.
Qed.

Lemma to_uint_wraps (x : Z) :
  - 2 ^ UINT_WIDTH T <= x < 0 -> to_uint T x = x + 2 ^ UINT_WIDTH T.
Proof.
  intros H. unfold to_uint.
  symmetry. apply Z.mod_unique with (q := -1); lia.
Qed.

End Conversions.

(** The expression of line 184 on a byte: its top four bits, times four. *)
Lemma tcpsize_of_byte (b : Z) :
  0 <= b <= 255 ->
  Z.shiftl (Z.shiftr (to_uint16 b) 4) 2 = 4 * (b / 16) /\ 0 <= b / 16 <= 15.
Proof.
  intros H. unfold to_uint16.
  rewrite Z.mod_small by (change (2 ^ 16) with 65536; lia).
  rewrite Z.shiftr_div_pow2, Z.shiftl_mul_pow2 by lia.
  change (2 ^ 4) with 16. change (2 ^ 2) with 4.
  split; [lia|].
  assert (b / 16 < 16) by (apply Z.div_lt_upper_bound; lia).
  assert (0 <= b / 16) by (apply Z.div_pos; lia).
  lia.
Qed.

(** ** The header classifier *)

Section Classifier.

Variable T : target.
Variable cfg : config.

(** TCP: the length field is the one at [IPv6_HDRLEN * sizeof(uintptr_t)]
    bytes from the IPv6 header, not the one [IPv6_HDRLEN] bytes from it. *)
Lemma ipv6_hdrsize_tcp (mem : Z -> Z) (ipv6 : Z) :
  16 <= UINT_WIDTH T ->
  CONFIG_NET_TCP cfg = true ->
  ipv6_proto mem ipv6 = IP_PROTO_TCP ->
  ipv6_hdrsize T cfg mem ipv6 =
    IPv6_HDRLEN +
    4 * (read8 mem (ipv6 + IPv6_HDRLEN * sizeof_uintptr_t T + tcp_hdr_tcpoffset)
         / 16).
Proof.
  intros HW Htcp Hp. unfold ipv6_hdrsize. rewrite Htcp, Hp, Z.eqb_refl.
  cbv beta iota zeta delta [andb].
  set (b := read8 mem _).
  destruct (tcpsize_of_byte b (read8_range _ _)) as [-> Hb].
  unfold IPv6_HDRLEN in *.
  rewrite (to_uint_small T HW (4 * (b / 16))) by (change (2 ^ 16) with 65536; lia).
  rewrite (to_uint_small T HW) by (change (2 ^ 16) with 65536; lia).
  apply (to_int_small T HW). change (2 ^ 15) with 32768. lia.
Qed.

Lemma ipv6_hdrsize_udp (mem : Z -> Z) (ipv6 : Z) :
  CONFIG_NET_UDP cfg = true ->
  ipv6_proto mem ipv6 = IP_PROTO_UDP ->
  ipv6_hdrsize T cfg mem ipv6 = IPv6_HDRLEN + UDP_HDRLEN.
Proof.
  intros Hudp Hp. unfold ipv6_hdrsize. rewrite Hudp, Hp.
  rewrite andb_false_r. reflexivity.
Qed.

Lemma ipv6_hdrsize_icmpv6 (mem : Z -> Z) (ipv6 : Z) :
  CONFIG_NET_ICMPv6 cfg = true ->
  ipv6_proto mem ipv6 = IP_PROTO_ICMP6 ->
  ipv6_hdrsize T cfg mem ipv6 = IPv6_HDRLEN + ICMPv6_HDRLEN.
Proof.
  intros Hicmp Hp. unfold ipv6_hdrsize. rewrite Hicmp, Hp.
  rewrite !andb_false_r. reflexivity.
Qed.

Lemma ipv6_hdrsize_unrecognized (mem : Z -> Z) (ipv6 : Z) :
  ipv6_proto mem ipv6 <> IP_PROTO_TCP ->
  ipv6_proto mem ipv6 <> IP_PROTO_UDP ->
  ipv6_proto mem ipv6 <> IP_PROTO_ICMP6 ->
  ipv6_hdrsize T cfg mem ipv6 = - EPROTONOSUPPORT.
Proof.
  intros H1 H2 H3. unfold ipv6_hdrsize.
  apply Z.eqb_neq in H1, H2, H3. rewrite H1, H2, H3.
  rewrite !andb_false_r. reflexivity.
Qed.

(** A header size that is not an error lies between the IPv6 header alone
    and the IPv6 header with the longest TCP header. *)
Lemma ipv6_hdrsize_range (mem : Z -> Z) (ipv6 : Z) :
  16 <= UINT_WIDTH T ->
  0 <= ipv6_hdrsize T cfg mem ipv6 ->
  IPv6_HDRLEN <= ipv6_hdrsize T cfg mem ipv6 <= 100.
Proof.
  intros HW H.
  destruct (CONFIG_NET_TCP cfg && (ipv6_proto mem ipv6 =? IP_PROTO_TCP)) eqn:E.
  - apply andb_prop in E as [E1 E2]. apply Z.eqb_eq in E2.
    rewrite (ipv6_hdrsize_tcp mem ipv6 HW E1 E2) in *.
    destruct (tcpsize_of_byte _ (read8_range mem
      (ipv6 + IPv6_HDRLEN * sizeof_uintptr_t T + tcp_hdr_tcpoffset))) as [_ Hb].
    unfold IPv6_HDRLEN in *. lia.
  - revert H. unfold ipv6_hdrsize. rewrite E. clear E.
    unfold IPv6_HDRLEN, UDP_HDRLEN, ICMPv6_HDRLEN, EPROTONOSUPPORT.
    destruct (_ && _); [lia|]. destruct (_ && _); lia.
Qed.

(** The cases of the classifier with a header of fixed size, and its
    default: for UDP it returns IPv6_HDRLEN + UDP_HDRLEN, for ICMPv6
    IPv6_HDRLEN + ICMPv6_HDRLEN, each where the protocol is configured, and
    for a protocol that is none of TCP, UDP and ICMPv6 it returns
    -EPROTONOSUPPORT. *)
Theorem ipv6_hdrsize_fixed_headers (mem : Z -> Z) (ipv6 : Z) :
  (CONFIG_NET_UDP cfg = true ->
   ipv6_proto mem ipv6 = IP_PROTO_UDP ->
   ipv6_hdrsize T cfg mem ipv6 = IPv6_HDRLEN + UDP_HDRLEN) /\
  (CONFIG_NET_ICMPv6 cfg = true ->
   ipv6_proto mem ipv6 = IP_PROTO_ICMP6 ->
   ipv6_hdrsize T cfg mem ipv6 = IPv6_HDRLEN + ICMPv6_HDRLEN) /\
  (ipv6_proto mem ipv6 <> IP_PROTO_TCP ->
   ipv6_proto mem ipv6 <> IP_PROTO_UDP ->
   ipv6_proto mem ipv6 <> IP_PROTO_ICMP6 ->
   ipv6_hdrsize T cfg mem ipv6 = - EPROTONOSUPPORT).
Proof.
  split; [apply ipv6_hdrsize_udp|].
  split; [apply ipv6_hdrsize_icmpv6|apply ipv6_hdrsize_unrecognized].
Qed.

End Classifier.

(** ** The buffer pool *)

(** A copy-in leaves a chain of at least the head and at most the head and
    every buffer that was free. *)
Lemma iob_copyin_loop_length (T : target) (mem : Z -> Z) (nfree : nat) :
  forall src len : Z,
    (1 <= length (snd (iob_copyin_loop T nfree mem src len)) <= S nfree)%nat.
Proof.
  induction nfree as [|k IH]; intros src len; simpl.
  - destruct (len <=? CONFIG_IOB_BUFSIZE T); simpl; lia.
  - destruct (len <=? CONFIG_IOB_BUFSIZE T); simpl; [lia|].
    specialize (IH (src + Z.min len (CONFIG_IOB_BUFSIZE T))
                   (len - Z.min len (CONFIG_IOB_BUFSIZE T))).
    destruct (iob_copyin_loop T k mem _ _) as [r rest]. simpl in *. lia.
Qed.

Lemma map_seq_from (A : Type) (n : nat) :
  forall (f : nat -> A) (k : nat),
    map f (seq k n) = map (fun i => f (k + i)%nat) (seq 0 n).
Proof.
  induction n as [|n IH]; intros f k; simpl; [reflexivity|].
  rewrite Nat.add_0_r. f_equal.
  rewrite (IH f (S k)), (IH (fun i => f (k + i)%nat) 1%nat).
  apply map_ext. intros i. f_equal. lia.
Qed.

Lemma read_bytes_app (mem : Z -> Z) (src a b : Z) :
  0 <= a -> 0 <= b ->
  read_bytes mem src (a + b) = read_bytes mem src a ++ read_bytes mem (src + a) b.
Proof.
  intros Ha Hb. unfold read_bytes.
  rewrite Z2Nat.inj_add, seq_app, map_app by assumption. f_equal.
  rewrite map_seq_from. apply map_ext. intros i. f_equal. lia.
Qed.

(** A copy-in that succeeds holds exactly the bytes asked for, in order. *)
Lemma iob_copyin_loop_bytes (T : target) (mem : Z -> Z) (nfree : nat) :
  0 < CONFIG_IOB_BUFSIZE T ->
  forall src len : Z,
    0 <= len ->
    fst (iob_copyin_loop T nfree mem src len) = OK ->
    concat (snd (iob_copyin_loop T nfree mem src len)) = read_bytes mem src len.
Proof.
  intros HB. induction nfree as [|k IH]; intros src len Hlen; simpl.
  - destruct (Z.leb_spec len (CONFIG_IOB_BUFSIZE T)); simpl.
    + intros _. rewrite app_nil_r, Z.min_l by lia. reflexivity.
    + discriminate.
  - destruct (Z.leb_spec len (CONFIG_IOB_BUFSIZE T)); simpl.
    + intros _. rewrite app_nil_r, Z.min_l by lia. reflexivity.
    + rewrite Z.min_r by lia.
      specialize (IH (src + CONFIG_IOB_BUFSIZE T) (len - CONFIG_IOB_BUFSIZE T)).
      destruct (iob_copyin_loop T k mem _ _) as [r rest]. simpl in *.
      intros Hr. rewrite IH by (lia || assumption).
      rewrite <- read_bytes_app by lia. f_equal. lia.
Qed.

(** ** Runs of the forwarding decision *)

Section Runs.

Variable T : target.
Variable C : collaborators.
Variable cfg : config.

Lemma conversion_not_applicable (dev fwddev : devptr) (ipv6 : Z) (w : world) :
  conversion_applies cfg dev fwddev w = false ->
  ipv6_packet_conversion T C cfg dev fwddev ipv6 w = (- EPFNOSUPPORT, w, []).
Proof. intros H. unfold_model. rewrite H. reflexivity. Qed.

Lemma conversion_unsupported_proto (dev fwddev : devptr) (ipv6 : Z) (w : world) :
  conversion_applies cfg dev fwddev w = true ->
  ipv6_proto (ram w) ipv6 <> IP_PROTO_TCP ->
  ipv6_proto (ram w) ipv6 <> IP_PROTO_UDP ->
  ipv6_packet_conversion T C cfg dev fwddev ipv6 w =
    (OK,
     store_d_len dev 0
       (if CONFIG_NET_STATISTICS cfg then count_ipv6_drop T w else w),
     []).
Proof.
  intros H Htcp Hudp. apply Z.eqb_neq in Htcp, Hudp.
  unfold_model. rewrite H, Htcp, Hudp, !andb_false_r.
  destruct (CONFIG_NET_STATISTICS cfg); reflexivity.
Qed.

Lemma drop_run (dev : devptr) (ipv6 ret : Z) (w : world) :
  drop T cfg dev ipv6 ret w = (- ENOSYS, dropped T cfg dev w, [Call_ipv6_dropstats]).
Proof. unfold_model. destruct (CONFIG_NET_STATISTICS cfg); reflexivity. Qed.

Lemma errout_with_iob_run (dev : devptr) (ipv6 ret : Z) (iob : option iob_chain)
    (w : world) :
  errout_with_iob T cfg dev ipv6 ret iob w =
    (- ENOSYS, dropped T cfg dev (release_chain iob w),
     [Call_iob_free_chain iob; Call_ipv6_dropstats]).
Proof. unfold_model. destruct (CONFIG_NET_STATISTICS cfg); reflexivity. Qed.

(** On the way to another device, with no conversion, the run is the body of
    lines 362-432. *)
Lemma ipv6_forward_to_other_device (dev fwddev : devptr) (ipv6 : Z) (w : world) :
  CONFIG_NETDEV_MULTINIC cfg = true ->
  find_fwddev C cfg ipv6 w = Some fwddev ->
  fwddev <> dev ->
  conversion_applies cfg dev fwddev w = false ->
  ipv6_forward T C cfg dev ipv6 w =
    forward_other_device T C cfg dev ipv6 (- EPFNOSUPPORT) w.
Proof.
  intros Hm Hf Hne Hc. apply Nat.eqb_neq in Hne.
  unfold ipv6_forward, bind, gets. rewrite Hf, Hm, Hne. simpl.
  rewrite (conversion_not_applicable dev fwddev ipv6 w Hc). simpl.
  destruct (forward_other_device _ _ _ _ _ _ _) as [[r w'] tr].
  reflexivity.
Qed.

End Runs.

(** ** The exits of ipv6_forward *)

Section Exits.

Variable T : target.
Variable C : collaborators.
Variable cfg : config.

(** C3, as amended: when the search finds no device for the destination
    (and, with several devices, the source), ipv6_forward returns
    -ENETUNREACH, leaves the state as it was, dev->d_len included, and calls
    nothing: no buffer is allocated. *)
Theorem ipv6_forward_no_route (dev : devptr) (ipv6 : Z) (w : world) :
  find_fwddev C cfg ipv6 w = None ->
  let r := ipv6_forward T C cfg dev ipv6 w in
  result r = - ENETUNREACH /\
  final r = w /\
  d_len (netdevs (final r) dev) = d_len (netdevs w dev) /\
  calls r = [].
Proof.
  intros Hf r.
  assert (E : r = (- ENETUNREACH, w, [])).
  { unfold r, ipv6_forward, bind, gets. rewrite Hf. reflexivity. }
  rewrite E. repeat split.
Qed.

(** C7, as amended: with a single device, when the search finds the device
    and its link needs no conversion, ipv6_forward returns -ENOSYS whatever
    the protocol, leaves the state as it was, dev->d_len and the drop
    counters included, and calls nothing. *)
Theorem ipv6_forward_single_device_unconverted (dev : devptr) (ipv6 : Z)
    (w : world) :
  CONFIG_NETDEV_MULTINIC cfg = false ->
  find_fwddev C cfg ipv6 w = Some dev ->
  CONFIG_NET_6LOWPAN cfg && needs_conversion cfg (d_lltype (netdevs w dev))
    = false ->
  let r := ipv6_forward T C cfg dev ipv6 w in
  result r = - ENOSYS /\
  final r = w /\
  d_len (netdevs (final r) dev) = d_len (netdevs w dev) /\
  g_netstats (final r) = g_netstats w /\
  calls r = [].
Proof.
  intros Hm Hf Hn r.
  assert (E : r = (- ENOSYS, w, [])).
  { unfold r, ipv6_forward, bind, gets. rewrite Hf, Hm. simpl.
    destruct (CONFIG_NET_6LOWPAN cfg); [|reflexivity].
    simpl in Hn.
    rewrite (conversion_not_applicable T C cfg dev dev ipv6 w); [reflexivity|].
    unfold conversion_applies. rewrite Hn. apply andb_false_r. }
  rewrite E. repeat split.
Qed.

(** C6: when the frame has a non-zero length, the link of the device it
    leaves by needs the 6LoWPAN conversion, and the protocol is neither TCP
    nor UDP, ipv6_forward returns OK, sets dev->d_len to zero, increments
    the IPv6 drop counter once and no other counter, and calls nothing: no
    buffer is allocated. *)
Theorem ipv6_forward_conversion_unsupported_proto (dev fwddev : devptr)
    (ipv6 : Z) (w : world) :
  CONFIG_NET_6LOWPAN cfg = true ->
  CONFIG_NET_STATISTICS cfg = true ->
  find_fwddev C cfg ipv6 w = Some fwddev ->
  0 < d_len (netdevs w dev) ->
  needs_conversion cfg (d_lltype (netdevs w (egress cfg dev fwddev))) = true ->
  ipv6_proto (ram w) ipv6 <> IP_PROTO_TCP ->
  ipv6_proto (ram w) ipv6 <> IP_PROTO_UDP ->
  let r := ipv6_forward T C cfg dev ipv6 w in
  result r = OK /\
  d_len (netdevs (final r) dev) = 0 /\
  ipv6_drop (g_netstats (final r)) = stat_incr T (ipv6_drop (g_netstats w)) /\
  icmpv6_drop (g_netstats (final r)) = icmpv6_drop (g_netstats w) /\
  udp_drop (g_netstats (final r)) = udp_drop (g_netstats w) /\
  tcp_drop (g_netstats (final r)) = tcp_drop (g_netstats w) /\
  calls r = [] /\
  iob_nfree (final r) = iob_nfree w /\
  iob_inuse (final r) = iob_inuse w.
Proof.
  intros H6 Hs Hf Hlen Hn Htcp Hudp r.
  assert (Ha : conversion_applies cfg dev (egress cfg dev fwddev) w = true).
  { unfold conversion_applies. rewrite Hn.
    apply Z.ltb_lt in Hlen. rewrite Hlen. reflexivity. }
  assert (E : r = (OK, store_d_len dev 0 (count_ipv6_drop T w), [])).
  { pose proof (conversion_unsupported_proto T C cfg dev _ ipv6 w Ha Htcp Hudp)
      as Hc.
    rewrite Hs in Hc. unfold egress in Hc.
    unfold r, ipv6_forward, bind, gets. rewrite Hf, H6.
    destruct (CONFIG_NETDEV_MULTINIC cfg && negb (fwddev =? dev)%nat);
      rewrite Hc; reflexivity. }
  rewrite E. unfold result, final, calls. simpl.
  rewrite Nat.eqb_refl. repeat split.
Qed.


(** On the way to another device with no conversion, a run either hands
    the frame to the TCP forwarding path, which accepts it, or passes the
    label drop. *)
Lemma ipv6_forward_other_device_result (dev fwddev : devptr) (ipv6 : Z)
    (w : world) :
  CONFIG_NETDEV_MULTINIC cfg = true ->
  find_fwddev C cfg ipv6 w = Some fwddev ->
  fwddev <> dev ->
  conversion_applies cfg dev fwddev w = false ->
  let r := ipv6_forward T C cfg dev ipv6 w in
  (result r = OK /\ ipv6_proto (ram w) ipv6 = IP_PROTO_TCP) \/
  (result r = - ENOSYS /\ In Call_ipv6_dropstats (calls r)).
Proof.
  intros Hm Hf Hne Hc r. unfold r.
  rewrite (ipv6_forward_to_other_device T C cfg dev fwddev ipv6 w Hm Hf Hne Hc).
  unfold_model. simpl.
  simpl. split_run;
    solve [ left; split; [reflexivity|apply Z.eqb_eq; assumption]
          | right; split; [reflexivity|simpl; tauto] ].
Qed.

End Exits.

(** ** Staging the payload for another device *)

Section Staging.

Variable T : target.
Variable C : collaborators.
Variable cfg : config.

(** The first call of the dispatch is the forwarding path of the protocol,
    handed the chain as staged. *)
Lemma forward_dispatch_head (dev : devptr) (ipv6 : Z) (iob : option iob_chain)
    (w : world) :
  exists tr,
    calls (forward_dispatch T C cfg dev ipv6 iob w) =
      (if ipv6_proto (ram w) ipv6 =? IP_PROTO_TCP
       then Call_tcp_ipv6_forward iob else Call_ipv6_dev_forward iob) :: tr.
Proof.
  unfold_model. simpl.
  destruct (ipv6_proto (ram w) ipv6 =? IP_PROTO_TCP); simpl;
    split_run; eexists; reflexivity.
Qed.

Lemma forward_dispatch_no_tryalloc (dev : devptr) (ipv6 : Z)
    (iob : option iob_chain) (w : world) :
  count_calls is_tryalloc (calls (forward_dispatch T C cfg dev ipv6 iob w)) = 0%nat.
Proof. unfold_model. simpl. split_run; reflexivity. Qed.

(** Lines 381-383 with an empty payload: nothing is allocated and the
    dispatch receives the null chain. *)
Lemma stage_empty_payload (dev : devptr) (ipv6 ret : Z) (w : world) :
  0 <= ipv6_hdrsize T cfg (ram w) ipv6 ->
  to_uint T (d_len (netdevs w dev) - ipv6_hdrsize T cfg (ram w) ipv6) = 0 ->
  forward_other_device T C cfg dev ipv6 ret w =
    forward_dispatch T C cfg dev ipv6 None w.
Proof.
  intros Hh Hp. apply Z.ltb_ge in Hh.
  unfold forward_other_device, get_d_len, bind, gets.
  cbv beta iota zeta. rewrite Hh. cbv beta iota zeta. rewrite Hp.
  change (0 <? 0) with false. cbv beta iota zeta.
  destruct (forward_dispatch _ _ _ _ _ _ _) as [[r w'] tr].
  reflexivity.
Qed.

(** Lines 390-394 with an empty pool. *)
Lemma stage_alloc_fails (dev : devptr) (ipv6 ret : Z) (w : world) :
  0 <= ipv6_hdrsize T cfg (ram w) ipv6 ->
  0 < to_uint T (d_len (netdevs w dev) - ipv6_hdrsize T cfg (ram w) ipv6) ->
  iob_nfree w = 0%nat ->
  forward_other_device T C cfg dev ipv6 ret w =
    (- ENOSYS, dropped T cfg dev w,
     [Call_iob_tryalloc false; Call_iob_free_chain None; Call_ipv6_dropstats]).
Proof.
  intros Hh Hp Hn. apply Z.ltb_ge in Hh. apply Z.ltb_lt in Hp.
  unfold forward_other_device, iob_tryalloc, get_d_len, bind, gets, emit.
  cbv beta iota zeta. rewrite Hh. cbv beta iota zeta. rewrite Hp, Hn.
  cbv beta iota zeta. rewrite errout_with_iob_run. reflexivity.
Qed.

(** Lines 390-402 with a buffer to take: the copy-in is asked for the whole
    payload size, from the byte after the headers. *)
Lemma stage_copyin_called (dev : devptr) (ipv6 ret : Z) (w : world) :
  0 <= ipv6_hdrsize T cfg (ram w) ipv6 ->
  0 < to_uint T (d_len (netdevs w dev) - ipv6_hdrsize T cfg (ram w) ipv6) ->
  iob_nfree w <> 0%nat ->
  exists tr,
    calls (forward_other_device T C cfg dev ipv6 ret w) =
      Call_iob_tryalloc false ::
      Call_iob_trycopyin
        (ipv6 + ipv6_hdrsize T cfg (ram w) ipv6)
        (to_uint T (d_len (netdevs w dev) - ipv6_hdrsize T cfg (ram w) ipv6))
        0 :: tr.
Proof.
  intros Hh Hp Hn. apply Z.ltb_ge in Hh. apply Z.ltb_lt in Hp.
  unfold forward_other_device, iob_tryalloc, iob_trycopyin, get_d_len, bind,
    gets, emit, calls.
  cbv beta iota zeta. rewrite Hh. cbv beta iota zeta. rewrite Hp.
  destruct (iob_nfree w) as [|n]; [contradiction|]. cbv beta iota zeta.
  destruct (iob_copyin_loop _ _ _ _ _) as [rc chain]. cbv beta iota zeta.
  destruct (rc <? 0).
  - destruct (errout_with_iob _ _ _ _ _ _ _) as [[r w'] tr]. eexists; reflexivity.
  - destruct (forward_dispatch _ _ _ _ _ _ _) as [[r w'] tr]. eexists; reflexivity.
Qed.

End Staging.

(** ** Failure on the way to another device *)

Lemma world_eq (w1 w2 : world) :
  netdevs w1 = netdevs w2 ->
  ram w1 = ram w2 ->
  g_netstats w1 = g_netstats w2 ->
  iob_nfree w1 = iob_nfree w2 ->
  iob_inuse w1 = iob_inuse w2 ->
  w1 = w2.
Proof. destruct w1, w2. simpl. intros. subst. reflexivity. Qed.

(** Releasing the chain a copy-in left returns the pool to where it stood
    before the head was allocated. *)
Lemma release_staged_chain (w : world) (n : nat) (chain : iob_chain) :
  iob_nfree w = S n ->
  (1 <= length chain <= S n)%nat ->
  release_chain (Some chain)
    (store_pool (n - (length chain - 1)) (S (iob_inuse w) + (length chain - 1))
       (store_pool n (S (iob_inuse w)) w)) = w.
Proof.
  intros Hn Hl. apply world_eq; try reflexivity.
  - unfold release_chain, store_pool. cbn [iob_nfree]. lia.
  - unfold release_chain, store_pool. cbn [iob_inuse]. lia.
Qed.

Section Failure.

Variable T : target.
Variable C : collaborators.
Variable cfg : config.

Lemma forward_dispatch_failure (dev : devptr) (ipv6 : Z)
    (iob : option iob_chain) (w : world) :
  tcp_forward_fails_clean C ->
  result (forward_dispatch T C cfg dev ipv6 iob w) < 0 ->
  forward_dispatch T C cfg dev ipv6 iob w =
    (- ENOSYS, dropped T cfg dev (release_chain iob w),
     [forward_call w ipv6 iob; Call_iob_free_chain iob; Call_ipv6_dropstats]).
Proof.
  intros Hclean. specialize (Hclean dev ipv6 iob w).
  unfold forward_dispatch, forward_call, ipv6_dev_forward, get_d_len, set_d_len,
    bind, gets, emit, modify, pure, result.
  cbv beta iota zeta.
  destruct (ipv6_proto (ram w) ipv6 =? IP_PROTO_TCP); cbv beta iota zeta.
  - destruct (tcp_ipv6_forward C dev ipv6 iob w) as [r w']. simpl in Hclean.
    cbv beta iota zeta. simpl app.
    destruct (Z.leb_spec 0 r); cbv beta iota zeta.
    + simpl. unfold OK. lia.
    + rewrite errout_with_iob_run. rewrite Hclean by assumption.
      intros _. reflexivity.
  - change (0 <=? - ENOSYS) with false. cbv beta iota zeta.
    rewrite errout_with_iob_run. intros _. reflexivity.
Qed.

(** Every failing run of lines 362-432 ends in [drop] with the state of the
    entry, but for the counters and dev->d_len; the chain is released at
    most once, and once when a forwarding path was called with it. *)
Lemma forward_other_device_failure (dev : devptr) (ipv6 ret : Z) (w : world) :
  tcp_forward_fails_clean C ->
  let r := forward_other_device T C cfg dev ipv6 ret w in
  result r < 0 ->
  result r = - ENOSYS /\
  final r = dropped T cfg dev w /\
  count_calls is_dropstats (calls r) = 1%nat /\
  (count_calls is_free_chain (calls r) <= 1)%nat /\
  (forall iob, In (Call_tcp_ipv6_forward iob) (calls r) \/
               In (Call_ipv6_dev_forward iob) (calls r) ->
               filter is_free_chain (calls r) = [Call_iob_free_chain iob]).
Proof.
  intros Hclean r. unfold r; clear r.
  unfold forward_other_device, iob_tryalloc, iob_trycopyin, get_d_len, bind,
    gets, emit.
  cbv beta iota zeta.
  destruct (ipv6_hdrsize T cfg (ram w) ipv6 <? 0).
  { rewrite drop_run. intros _. simpl.
    repeat split; auto. intros iob [[H|[]]|[H|[]]]; discriminate H. }
  cbv beta iota zeta.
  destruct (0 <? to_uint T _).
  2:{ intros Hr.
      assert (Hr' : result (forward_dispatch T C cfg dev ipv6 None w) < 0).
      { revert Hr. destruct (forward_dispatch _ _ _ _ _ _ _) as [[a b] c].
        exact (fun H => H). }
      rewrite (forward_dispatch_failure dev ipv6 None w Hclean Hr').
      unfold forward_call. simpl.
      destruct (ipv6_proto (ram w) ipv6 =? IP_PROTO_TCP); simpl;
        repeat split; auto;
        intros iob [[H|[H|[H|[]]]]|[H|[H|[H|[]]]]]; try discriminate H;
        inversion H; reflexivity. }
  destruct (iob_nfree w) as [|n] eqn:Hn; cbv beta iota zeta.
  { rewrite errout_with_iob_run. intros _. simpl.
    repeat split; auto. intros iob [[H|[H|[H|[]]]]|[H|[H|[H|[]]]]]; discriminate H. }
  match goal with
  | |- context [iob_copyin_loop T ?k ?m ?src ?len] =>
      pose proof (iob_copyin_loop_length T m k src len) as Hl;
      destruct (iob_copyin_loop T k m src len) as [rc chain]
  end.
  simpl in Hl. pose proof (release_staged_chain w n chain Hn Hl) as Hrel.
  cbv beta iota zeta.
  change (iob_nfree (store_pool n (S (iob_inuse w)) w)) with n.
  change (iob_inuse (store_pool n (S (iob_inuse w)) w)) with (S (iob_inuse w)).
  destruct (rc <? 0).
  { rewrite errout_with_iob_run. intros _.
    unfold final, result, calls. cbn [fst snd]. rewrite Hrel. simpl.
    repeat split; auto.
    intros iob [[H|[H|[H|[H|[]]]]]|[H|[H|[H|[H|[]]]]]]; discriminate H. }
  intros Hr.
  match goal with
  | |- context [forward_dispatch T C cfg dev ipv6 (Some chain) ?w1] =>
      assert (Hr' : result (forward_dispatch T C cfg dev ipv6 (Some chain) w1) < 0);
      [ revert Hr; destruct (forward_dispatch T C cfg dev ipv6 (Some chain) w1)
          as [[a b] c]; exact (fun H => H)
      | rewrite (forward_dispatch_failure dev ipv6 (Some chain) w1 Hclean Hr') ]
  end.
  unfold final, result, calls. cbn [fst snd]. rewrite Hrel.
  unfold forward_call. simpl.
  destruct (ipv6_proto (ram w) ipv6 =? IP_PROTO_TCP); simpl;
    repeat split; auto;
    intros iob [[H|[H|[H|[H|[H|[]]]]]]|[H|[H|[H|[H|[H|[]]]]]]];
    try discriminate H; inversion H; reflexivity.
Qed.

End Failure.

Section OtherDevice.

Variable T : target.
Variable C : collaborators.
Variable cfg : config.

(** A conversion that applies ends in OK. *)
Lemma conversion_applies_ok (dev fwddev : devptr) (ipv6 : Z) (w : world) :
  conversion_applies cfg dev fwddev w = true ->
  result (ipv6_packet_conversion T C cfg dev fwddev ipv6 w) = OK.
Proof. intros H. unfold_model. rewrite H. simpl. split_run; reflexivity. Qed.

Lemma dropped_d_len (dev : devptr) (w : world) :
  d_len (netdevs (dropped T cfg dev w) dev) = 0.
Proof.
  unfold dropped, store_d_len. cbn [netdevs]. rewrite Nat.eqb_refl. reflexivity.
Qed.

Lemma dropped_pool (dev : devptr) (w : world) :
  iob_nfree (dropped T cfg dev w) = iob_nfree w /\
  iob_inuse (dropped T cfg dev w) = iob_inuse w.
Proof.
  unfold dropped. destruct (CONFIG_NET_STATISTICS cfg); split; reflexivity.
Qed.

Lemma dropped_counters (dev : devptr) (w : world) :
  CONFIG_NET_STATISTICS cfg = true ->
  ipv6_drop (g_netstats (dropped T cfg dev w))
    = stat_incr T (ipv6_drop (g_netstats w)) /\
  icmpv6_drop (g_netstats (dropped T cfg dev w))
    = stat_incr T (icmpv6_drop (g_netstats w)) /\
  udp_drop (g_netstats (dropped T cfg dev w))
    = stat_incr T (udp_drop (g_netstats w)) /\
  tcp_drop (g_netstats (dropped T cfg dev w))
    = stat_incr T (tcp_drop (g_netstats w)).
Proof. intros H. unfold dropped. rewrite H. repeat split. Qed.

(** With the TCP forwarding path of the spec every run of lines 362-432
    fails. *)
Lemma forward_other_device_unsupported (dev : devptr) (ipv6 ret : Z) (w : world) :
  tcp_ipv6_forward C = tcp_ipv6_forward_unsupported ->
  result (forward_other_device T C cfg dev ipv6 ret w) = - ENOSYS.
Proof.
  intros Hstub. unfold_model. rewrite Hstub.
  unfold tcp_ipv6_forward_unsupported. simpl. split_run; reflexivity.
Qed.

Lemma unsupported_fails_clean :
  tcp_ipv6_forward C = tcp_ipv6_forward_unsupported ->
  tcp_forward_fails_clean C.
Proof. intros Hstub dev ipv6 iob w _. rewrite Hstub. reflexivity. Qed.

(** C2, as amended: a run of ipv6_forward that returns a failure left by
    one of three exits.  By the no-route exit it returns -ENETUNREACH and by
    a same-device exit -ENOSYS, in both cases without passing
    ipv6_dropstats and with the state as it was: counters, dev->d_len and
    pool untouched.  Otherwise it left by the drop exit on the way to
    another device, where (the TCP forwarding path leaving the state alone
    when it fails) it returns -ENOSYS after one pass through
    ipv6_dropstats: with CONFIG_NET_STATISTICS the four drop counters are
    incremented, dev->d_len is zero and no buffer remains allocated. *)
Theorem ipv6_forward_failure_exits (dev : devptr) (ipv6 : Z) (w : world) :
  tcp_forward_fails_clean C ->
  let r := ipv6_forward T C cfg dev ipv6 w in
  result r < 0 ->
  (find_fwddev C cfg ipv6 w = None /\
   result r = - ENETUNREACH /\ final r = w /\ calls r = [])
  \/
  (exists fwddev,
     find_fwddev C cfg ipv6 w = Some fwddev /\ egress cfg dev fwddev = dev /\
     result r = - ENOSYS /\ final r = w /\ calls r = [])
  \/
  (exists fwddev,
     find_fwddev C cfg ipv6 w = Some fwddev /\ egress cfg dev fwddev <> dev /\
     result r = - ENOSYS /\
     count_calls is_dropstats (calls r) = 1%nat /\
     d_len (netdevs (final r) dev) = 0 /\
     (CONFIG_NET_STATISTICS cfg = true ->
      ipv6_drop (g_netstats (final r)) = stat_incr T (ipv6_drop (g_netstats w)) /\
      icmpv6_drop (g_netstats (final r))
        = stat_incr T (icmpv6_drop (g_netstats w)) /\
      udp_drop (g_netstats (final r)) = stat_incr T (udp_drop (g_netstats w)) /\
      tcp_drop (g_netstats (final r)) = stat_incr T (tcp_drop (g_netstats w))) /\
     iob_nfree (final r) = iob_nfree w /\
     iob_inuse (final r) = iob_inuse w).
Proof.
  intros Hclean r Hr.
  destruct (find_fwddev C cfg ipv6 w) as [fwddev|] eqn:Hf.
  2:{ left. split; [reflexivity|].
      assert (E : r = (- ENETUNREACH, w, [])).
      { unfold r, ipv6_forward, bind, gets. rewrite Hf. reflexivity. }
      rewrite E. repeat split. }
  right.
  destruct (CONFIG_NETDEV_MULTINIC cfg && negb (fwddev =? dev)%nat) eqn:Hx.
  - (* another device *)
    right. exists fwddev. split; [reflexivity|].
    apply andb_prop in Hx as [Hm Hne].
    apply negb_true_iff, Nat.eqb_neq in Hne.
    assert (He : egress cfg dev fwddev = fwddev).
    { unfold egress. rewrite Hm.
      destruct (Nat.eqb_spec fwddev dev); [contradiction|reflexivity]. }
    rewrite He. split; [assumption|].
    destruct (conversion_applies cfg dev fwddev w) eqn:Hc.
    + exfalso. pose proof (conversion_applies_ok dev fwddev ipv6 w Hc) as Hok.
      revert Hr Hok. unfold r, ipv6_forward, bind, gets, result.
      rewrite Hf, Hm. apply Nat.eqb_neq in Hne. rewrite Hne.
      cbv beta iota zeta. cbn [andb negb].
      destruct (ipv6_packet_conversion T C cfg dev fwddev ipv6 w)
        as [[rc w1] t1].
      cbn [fst]. intros Hr ->. revert Hr.
      change (OK <? 0) with false. cbv beta iota zeta. unfold pure, OK.
      cbn [fst]. lia.
    + pose proof (ipv6_forward_to_other_device T C cfg dev fwddev ipv6 w
                    Hm Hf Hne Hc) as E.
      fold r in E.
      destruct (forward_other_device_failure T C cfg dev ipv6
                  (- EPFNOSUPPORT) w Hclean) as (H1 & H2 & H3 & _).
      { rewrite <- E. exact Hr. }
      rewrite <- E in H1, H2, H3.
      rewrite H2. split; [assumption|]. split; [assumption|].
      split; [apply dropped_d_len|].
      split; [apply dropped_counters|].
      apply dropped_pool.
  - (* the same device *)
    left. exists fwddev. split; [reflexivity|].
    assert (He : egress cfg dev fwddev = dev) by (unfold egress; rewrite Hx; reflexivity).
    split; [assumption|].
    revert Hr. unfold r, ipv6_forward, bind, gets, result.
    rewrite Hf, Hx. cbv beta iota zeta.
    destruct (CONFIG_NET_6LOWPAN cfg); [|intros _; repeat split].
    destruct (conversion_applies cfg dev dev w) eqn:Hc.
    + pose proof (conversion_applies_ok dev dev ipv6 w Hc) as Hok. revert Hok.
      unfold result.
      destruct (ipv6_packet_conversion T C cfg dev dev ipv6 w) as [[rc w1] t1].
      cbn [fst]. intros ->. change (OK <? 0) with false. unfold pure, OK.
      cbn [fst]. lia.
    + rewrite (conversion_not_applicable T C cfg dev dev ipv6 w Hc).
      intros _. repeat split.
Qed.

End OtherDevice.

Section PayloadSize.

Variable T : target.
Variable C : collaborators.
Variable cfg : config.

(** C8: on the way to another device the payload size is dev->d_len less
    the header size of the classifier.  When it is zero nothing is
    allocated and the forwarding path of the protocol is the first call,
    handed the null chain; when it is positive the first call allocates the
    head of the chain and the copy-in is asked for exactly that size, from
    the byte after the headers. *)
Theorem ipv6_forward_stages_payload (dev fwddev : devptr) (ipv6 : Z)
    (w : world) :
  CONFIG_NETDEV_MULTINIC cfg = true ->
  find_fwddev C cfg ipv6 w = Some fwddev ->
  fwddev <> dev ->
  conversion_applies cfg dev fwddev w = false ->
  16 <= UINT_WIDTH T ->
  let hdrsize := ipv6_hdrsize T cfg (ram w) ipv6 in
  let paysize := d_len (netdevs w dev) - hdrsize in
  let r := ipv6_forward T C cfg dev ipv6 w in
  0 <= hdrsize <= d_len (netdevs w dev) ->
  d_len (netdevs w dev) < 2 ^ 16 ->
  (paysize = 0 ->
   count_calls is_tryalloc (calls r) = 0%nat /\
   hd_error (calls r) = Some (forward_call w ipv6 None)) /\
  (0 < paysize ->
   hd_error (calls r) = Some (Call_iob_tryalloc false) /\
   (iob_nfree w <> 0%nat ->
    nth_error (calls r) 1
      = Some (Call_iob_trycopyin (ipv6 + hdrsize) paysize 0))).
Proof.
  intros Hm Hf Hne Hc HW hdrsize paysize r Hh Hlen.
  pose proof (ipv6_forward_to_other_device T C cfg dev fwddev ipv6 w
                Hm Hf Hne Hc) as E.
  fold r in E. rewrite E. fold hdrsize in Hh. split.
  - intros Hp.
    assert (Hu : to_uint T (d_len (netdevs w dev) - hdrsize) = 0).
    { fold paysize. rewrite Hp. apply Z.mod_0_l.
      apply Z.pow_nonzero; lia. }
    rewrite (stage_empty_payload T C cfg dev ipv6 (- EPFNOSUPPORT) w
               (proj1 Hh) Hu).
    split; [apply forward_dispatch_no_tryalloc|].
    destruct (forward_dispatch_head T C cfg dev ipv6 None w) as [tr Htr].
    rewrite Htr. reflexivity.
  - intros Hp.
    assert (Hu : to_uint T (d_len (netdevs w dev) - hdrsize) = paysize).
    { apply (to_uint_small T HW). unfold paysize. lia. }
    assert (Hpos : 0 < to_uint T (d_len (netdevs w dev) - hdrsize))
      by (rewrite Hu; exact Hp).
    destruct (Nat.eq_dec (iob_nfree w) 0) as [Hn|Hn].
    + rewrite (stage_alloc_fails T C cfg dev ipv6 (- EPFNOSUPPORT) w
                 (proj1 Hh) Hpos Hn).
      split; [reflexivity|]. intros Hn'. contradiction.
    + destruct (stage_copyin_called T C cfg dev ipv6 (- EPFNOSUPPORT) w
                  (proj1 Hh) Hpos Hn) as [tr Htr].
      rewrite Htr. fold hdrsize. rewrite Hu. split; [reflexivity|].
      intros _. reflexivity.
Qed.

(** C10: on the way to another device, when dev->d_len is smaller than the
    header size of the classifier, the payload size is the difference
    wrapped modulo 2^UINT_WIDTH, within the header size of the largest
    unsigned value; the frame is not rejected: the first call allocates the
    head of the chain, and with a buffer to take the copy-in is asked for
    the wrapped size. *)
Theorem ipv6_forward_truncated_frame_wraps (dev fwddev : devptr) (ipv6 : Z)
    (w : world) :
  CONFIG_NETDEV_MULTINIC cfg = true ->
  find_fwddev C cfg ipv6 w = Some fwddev ->
  fwddev <> dev ->
  conversion_applies cfg dev fwddev w = false ->
  16 <= UINT_WIDTH T ->
  let hdrsize := ipv6_hdrsize T cfg (ram w) ipv6 in
  let paysize := to_uint T (d_len (netdevs w dev) - hdrsize) in
  let r := ipv6_forward T C cfg dev ipv6 w in
  0 <= d_len (netdevs w dev) < hdrsize ->
  paysize = d_len (netdevs w dev) - hdrsize + 2 ^ UINT_WIDTH T /\
  2 ^ UINT_WIDTH T - hdrsize <= paysize < 2 ^ UINT_WIDTH T /\
  hd_error (calls r) = Some (Call_iob_tryalloc false) /\
  (iob_nfree w <> 0%nat ->
   nth_error (calls r) 1
     = Some (Call_iob_trycopyin (ipv6 + hdrsize) paysize 0)) /\
  (iob_nfree w = 0%nat ->
   calls r = [Call_iob_tryalloc false; Call_iob_free_chain None;
              Call_ipv6_dropstats]).
Proof.
  intros Hm Hf Hne Hc HW hdrsize paysize r Hlen.
  assert (Hh : 0 <= hdrsize) by lia.
  pose proof (ipv6_hdrsize_range T cfg (ram w) ipv6 HW Hh) as Hrange.
  fold hdrsize in Hrange.
  assert (Hpow : 2 ^ 16 <= 2 ^ UINT_WIDTH T)
    by (apply pow2_width_lower; lia).
  change (2 ^ 16) with 65536 in Hpow.
  assert (Hu : paysize = d_len (netdevs w dev) - hdrsize + 2 ^ UINT_WIDTH T).
  { apply to_uint_wraps. lia. }
  assert (Hpos : 0 < to_uint T (d_len (netdevs w dev) - hdrsize)).
  { fold paysize. lia. }
  pose proof (ipv6_forward_to_other_device T C cfg dev fwddev ipv6 w
                Hm Hf Hne Hc) as E.
  fold r in E. rewrite E.
  split; [exact Hu|]. split; [lia|].
  destruct (Nat.eq_dec (iob_nfree w) 0) as [Hn|Hn].
  - rewrite (stage_alloc_fails T C cfg dev ipv6 (- EPFNOSUPPORT) w Hh Hpos Hn).
    split; [reflexivity|]. split; [intros Hn'; contradiction|].
    intros _. reflexivity.
  - destruct (stage_copyin_called T C cfg dev ipv6 (- EPFNOSUPPORT) w
                Hh Hpos Hn) as [tr Htr].
    rewrite Htr. split; [reflexivity|]. split; [intros _; reflexivity|].
    intros Hn'. contradiction.
Qed.

(** On the way to another device with a payload to stage and the pool
    empty, the run is the failed allocation, the release of the null chain
    and the drop: it returns -ENOSYS, and the pool is as it was. *)
Lemma ipv6_forward_alloc_failure (dev fwddev : devptr) (ipv6 : Z) (w : world) :
  CONFIG_NETDEV_MULTINIC cfg = true ->
  find_fwddev C cfg ipv6 w = Some fwddev ->
  fwddev <> dev ->
  conversion_applies cfg dev fwddev w = false ->
  0 <= ipv6_hdrsize T cfg (ram w) ipv6 ->
  0 < to_uint T (d_len (netdevs w dev) - ipv6_hdrsize T cfg (ram w) ipv6) ->
  iob_nfree w = 0%nat ->
  ipv6_forward T C cfg dev ipv6 w =
    (- ENOSYS, dropped T cfg dev w,
     [Call_iob_tryalloc false; Call_iob_free_chain None; Call_ipv6_dropstats]).
Proof.
  intros Hm Hf Hne Hc Hh Hp Hn.
  rewrite (ipv6_forward_to_other_device T C cfg dev fwddev ipv6 w Hm Hf Hne Hc).
  apply stage_alloc_fails; assumption.
Qed.

End PayloadSize.

(** ** Further properties of the classifier *)

Section ClassifierResults.

Variable T : target.
Variable cfg : config.

(** X2: ipv6_hdrsize returns either -EPROTONOSUPPORT or a size between the
    40 bytes of the IPv6 header and 100, and that size is a multiple of 4. *)
Theorem ipv6_hdrsize_result (mem : Z -> Z) (ipv6 : Z) :
  16 <= UINT_WIDTH T ->
  ipv6_hdrsize T cfg mem ipv6 = - EPROTONOSUPPORT \/
  (IPv6_HDRLEN <= ipv6_hdrsize T cfg mem ipv6 <= 100 /\
   ipv6_hdrsize T cfg mem ipv6 mod 4 = 0).
Proof.
  intros HW.
  destruct (CONFIG_NET_TCP cfg && (ipv6_proto mem ipv6 =? IP_PROTO_TCP)) eqn:E.
  - right. apply andb_prop in E as [E1 E2]. apply Z.eqb_eq in E2.
    rewrite (ipv6_hdrsize_tcp T cfg mem ipv6 HW E1 E2).
    destruct (tcpsize_of_byte _ (read8_range mem
      (ipv6 + IPv6_HDRLEN * sizeof_uintptr_t T + tcp_hdr_tcpoffset))) as [_ Hb].
    unfold IPv6_HDRLEN in *. split; [lia|].
    set (q := read8 mem _ / 16) in *.
    replace (40 + 4 * q) with ((10 + q) * 4) by lia.
    apply Z.mod_mul. discriminate.
  - unfold ipv6_hdrsize. rewrite E. clear E.
    unfold IPv6_HDRLEN, UDP_HDRLEN, ICMPv6_HDRLEN.
    destruct (_ && _); [right; split; [lia|reflexivity]|].
    destruct (_ && _); [right; split; [lia|reflexivity]|].
    left. reflexivity.
Qed.

(** X3: a protocol whose support is configured out is not recognized:
    without CONFIG_NET_TCP a TCP header, without CONFIG_NET_UDP a UDP header
    and without CONFIG_NET_ICMPv6 an ICMPv6 header each give
    -EPROTONOSUPPORT. *)
Theorem ipv6_hdrsize_configured_out (mem : Z -> Z) (ipv6 : Z) :
  (CONFIG_NET_TCP cfg = false ->
   ipv6_proto mem ipv6 = IP_PROTO_TCP ->
   ipv6_hdrsize T cfg mem ipv6 = - EPROTONOSUPPORT) /\
  (CONFIG_NET_UDP cfg = false ->
   ipv6_proto mem ipv6 = IP_PROTO_UDP ->
   ipv6_hdrsize T cfg mem ipv6 = - EPROTONOSUPPORT) /\
  (CONFIG_NET_ICMPv6 cfg = false ->
   ipv6_proto mem ipv6 = IP_PROTO_ICMP6 ->
   ipv6_hdrsize T cfg mem ipv6 = - EPROTONOSUPPORT).
Proof.
  unfold ipv6_hdrsize. repeat split; intros Hc Hp; rewrite Hc, Hp;
    cbn [andb]; rewrite ?andb_false_r; reflexivity.
Qed.

End ClassifierResults.

(** ** Further properties of the forwarding decision *)

Section Decision.

Variable T : target.
Variable C : collaborators.
Variable cfg : config.

(** X4: ipv6_packet_conversion returns OK when the frame is not empty and
    the link of the forwarding device needs the conversion, and then
    dev->d_len is zero whatever the protocol; otherwise it returns
    -EPFNOSUPPORT, changes nothing and calls nothing.  It returns no other
    value. *)
Theorem ipv6_packet_conversion_outcome (dev fwddev : devptr) (ipv6 : Z)
    (w : world) :
  let r := ipv6_packet_conversion T C cfg dev fwddev ipv6 w in
  (conversion_applies cfg dev fwddev w = true /\
   result r = OK /\ d_len (netdevs (final r) dev) = 0) \/
  (conversion_applies cfg dev fwddev w = false /\
   result r = - EPFNOSUPPORT /\ final r = w /\ calls r = []).
Proof.
  intros r. unfold r.
  destruct (conversion_applies cfg dev fwddev w) eqn:Ha.
  - left. split; [reflexivity|]. split; [apply conversion_applies_ok, Ha|].
    unfold_model. rewrite Ha. simpl. split_run; eqb_self; reflexivity.
  - right. rewrite (conversion_not_applicable T C cfg dev fwddev ipv6 w Ha).
    repeat split.
Qed.

(** X5: when the frame is not empty and the link of the device it leaves by
    needs the conversion, ipv6_forward hands a TCP frame to
    sixlowpan_tcp_send and a UDP frame to sixlowpan_udp_send, once and with
    that device, then sets dev->d_len to zero and returns OK; the buffer
    pool, the forwarding paths and ipv6_dropstats are not called. *)
Theorem ipv6_forward_converted (dev fwddev : devptr) (ipv6 : Z) (w : world) :
  CONFIG_NET_6LOWPAN cfg = true ->
  find_fwddev C cfg ipv6 w = Some fwddev ->
  conversion_applies cfg dev (egress cfg dev fwddev) w = true ->
  let r := ipv6_forward T C cfg dev ipv6 w in
  (CONFIG_NET_TCP cfg = true ->
   ipv6_proto (ram w) ipv6 = IP_PROTO_TCP ->
   r = (OK,
        store_d_len dev 0
          (sixlowpan_tcp_send C dev (egress cfg dev fwddev) ipv6 w),
        [Call_sixlowpan_tcp_send])) /\
  (CONFIG_NET_UDP cfg = true ->
   ipv6_proto (ram w) ipv6 = IP_PROTO_UDP ->
   r = (OK,
        store_d_len dev 0
          (sixlowpan_udp_send C dev (egress cfg dev fwddev) ipv6 w),
        [Call_sixlowpan_udp_send])) /\
  result r = OK /\
  d_len (netdevs (final r) dev) = 0 /\
  forallb is_sender (calls r) = true.
Proof.
  intros H6 Hf Ha r. unfold r, egress in *.
  unfold ipv6_forward, bind, gets. rewrite Hf, H6. cbv beta iota zeta.
  destruct (CONFIG_NETDEV_MULTINIC cfg && negb (fwddev =? dev)%nat);
    unfold ipv6_packet_conversion, set_d_len, bind, gets, modify, emit, pure,
      result, final, calls;
    cbv beta iota zeta; rewrite Ha; cbv beta iota zeta.
  all: split;
    [ intros Ht Hp; rewrite Ht, Hp; reflexivity | ].
  all: split;
    [ intros Hu Hp; rewrite Hu, Hp; rewrite andb_false_r; reflexivity | ].
  all: split_run; eqb_self; repeat split.
Qed.

(** X6: ipv6_forward returns OK, -ENETUNREACH or -ENOSYS and nothing else,
    whatever the collaborators do. *)
Theorem ipv6_forward_returns (dev : devptr) (ipv6 : Z) (w : world) :
  result (ipv6_forward T C cfg dev ipv6 w) = OK \/
  result (ipv6_forward T C cfg dev ipv6 w) = - ENETUNREACH \/
  result (ipv6_forward T C cfg dev ipv6 w) = - ENOSYS.
Proof. unfold_model. simpl. split_run; auto. Qed.

(** X7: a run of ipv6_forward either fails having changed nothing and called
    nothing, or ends with dev->d_len zero; so every successful return
    leaves dev->d_len zero. *)
Theorem ipv6_forward_untouched_or_cleared (dev : devptr) (ipv6 : Z) (w : world) :
  let r := ipv6_forward T C cfg dev ipv6 w in
  ((result r < 0 /\ final r = w /\ calls r = []) \/
   d_len (netdevs (final r) dev) = 0) /\
  (0 <= result r -> result r = OK /\ d_len (netdevs (final r) dev) = 0).
Proof.
  intros r.
  assert (H : (result r < 0 /\ final r = w /\ calls r = []) \/
              (d_len (netdevs (final r) dev) = 0 /\
               (result r = OK \/ result r = - ENOSYS))).
  { unfold r. unfold_model. simpl. split_run; eqb_self;
      solve [ left; repeat split
            | right; split; [reflexivity|auto] ]. }
  split.
  - destruct H as [H|[H _]]; [left|right]; assumption.
  - intros Hr. destruct H as [[H _]|[H1 [H2|H2]]].
    + lia.
    + split; assumption.
    + rewrite H2 in Hr. unfold ENOSYS in Hr. lia.
Qed.

(** X8: in one run of ipv6_forward each of iob_tryalloc, iob_trycopyin,
    a forwarding path, iob_free_chain and ipv6_dropstats is called at most
    once, and a 6LoWPAN sender at most once. *)
Theorem ipv6_forward_calls_once (dev : devptr) (ipv6 : Z) (w : world) :
  let t := calls (ipv6_forward T C cfg dev ipv6 w) in
  (count_calls is_tryalloc t <= 1)%nat /\
  (count_calls is_trycopyin t <= 1)%nat /\
  (count_calls is_forward_path t <= 1)%nat /\
  (count_calls is_free_chain t <= 1)%nat /\
  (count_calls is_dropstats t <= 1)%nat /\
  (count_calls is_sender t <= 1)%nat.
Proof.
  intros t. unfold t. unfold_model. simpl.
  split_run; unfold count_calls; simpl; lia.
Qed.

(** X9: when the forwarding device is the receiving device, or the build
    has a single device, ipv6_forward stages nothing and forwards nothing:
    the only calls it can make are to the 6LoWPAN senders. *)
Theorem ipv6_forward_same_device_calls (dev : devptr) (ipv6 : Z) (w : world) :
  (forall fwddev,
     find_fwddev C cfg ipv6 w = Some fwddev -> egress cfg dev fwddev = dev) ->
  forallb is_sender (calls (ipv6_forward T C cfg dev ipv6 w)) = true.
Proof.
  intros He.
  unfold ipv6_forward, bind, gets. cbv beta iota zeta.
  destruct (find_fwddev C cfg ipv6 w) as [fwddev|]; [|reflexivity].
  specialize (He fwddev eq_refl). unfold egress in He.
  destruct (CONFIG_NETDEV_MULTINIC cfg && negb (fwddev =? dev)%nat) eqn:Hx.
  { exfalso. apply andb_prop in Hx as [_ Hx].
    apply negb_true_iff, Nat.eqb_neq in Hx. contradiction. }
  unfold_model. simpl. split_run; reflexivity.
Qed.

(** X13: an empty frame is never converted: when dev->d_len is zero and
    the forwarding device is the receiving device (or the build has a
    single device), ipv6_forward returns -ENOSYS, changes nothing and calls
    nothing. *)
Theorem ipv6_forward_empty_frame_same_device (dev fwddev : devptr) (ipv6 : Z)
    (w : world) :
  d_len (netdevs w dev) = 0 ->
  find_fwddev C cfg ipv6 w = Some fwddev ->
  egress cfg dev fwddev = dev ->
  ipv6_forward T C cfg dev ipv6 w = (- ENOSYS, w, []).
Proof.
  intros Hl Hf He. unfold egress in He.
  unfold ipv6_forward, bind, gets. rewrite Hf. cbv beta iota zeta.
  destruct (CONFIG_NETDEV_MULTINIC cfg && negb (fwddev =? dev)%nat) eqn:Hx.
  { exfalso. apply andb_prop in Hx as [_ Hx].
    apply negb_true_iff, Nat.eqb_neq in Hx. contradiction. }
  destruct (CONFIG_NET_6LOWPAN cfg); [|reflexivity].
  rewrite (conversion_not_applicable T C cfg dev dev ipv6 w); [reflexivity|].
  unfold conversion_applies. rewrite Hl. reflexivity.
Qed.

End Decision.

(** ** Further properties of the staging *)

(** A copy-in larger than the head and the free buffers hold fails with
    -ENOMEM, having taken every one of them. *)
Lemma iob_copyin_loop_exhausts (T : target) (mem : Z -> Z) (nfree : nat) :
  0 < CONFIG_IOB_BUFSIZE T ->
  forall src len : Z,
    Z.of_nat (S nfree) * CONFIG_IOB_BUFSIZE T < len ->
    fst (iob_copyin_loop T nfree mem src len) = - ENOMEM /\
    length (snd (iob_copyin_loop T nfree mem src len)) = S nfree.
Proof.
  intros HB. induction nfree as [|k IH]; intros src len Hlen; simpl.
  - destruct (Z.leb_spec len (CONFIG_IOB_BUFSIZE T)); [lia|].
    split; reflexivity.
  - destruct (Z.leb_spec len (CONFIG_IOB_BUFSIZE T)); [lia|].
    rewrite Z.min_r by lia.
    specialize (IH (src + CONFIG_IOB_BUFSIZE T) (len - CONFIG_IOB_BUFSIZE T)).
    destruct (iob_copyin_loop T k mem _ _) as [r rest]. cbn [fst snd] in *.
    destruct IH as [-> IH]; [lia|]. cbn [length]. rewrite IH.
    split; reflexivity.
Qed.

(** A copy-in that the head and the free buffers can hold succeeds. *)
Lemma iob_copyin_loop_fits (T : target) (mem : Z -> Z) (nfree : nat) :
  0 < CONFIG_IOB_BUFSIZE T ->
  forall src len : Z,
    len <= Z.of_nat (S nfree) * CONFIG_IOB_BUFSIZE T ->
    fst (iob_copyin_loop T nfree mem src len) = OK.
Proof.
  intros HB. induction nfree as [|k IH]; intros src len Hlen; simpl.
  - destruct (Z.leb_spec len (CONFIG_IOB_BUFSIZE T)); [reflexivity|lia].
  - destruct (Z.leb_spec len (CONFIG_IOB_BUFSIZE T)); [reflexivity|].
    rewrite Z.min_r by lia.
    specialize (IH (src + CONFIG_IOB_BUFSIZE T) (len - CONFIG_IOB_BUFSIZE T)).
    destruct (iob_copyin_loop T k mem _ _) as [r rest]. cbn [fst] in *.
    apply IH. lia.
Qed.

Section StagingOutcomes.

Variable T : target.
Variable C : collaborators.
Variable cfg : config.

(** X10: on the way to another device, a run of ipv6_forward that does not
    fail is one where the frame is TCP and tcp_ipv6_forward accepted it:
    it returns OK with dev->d_len zero, one forwarding call, and neither
    releases the chain nor counts a drop. *)
Theorem ipv6_forward_accepted (dev fwddev : devptr) (ipv6 : Z) (w : world) :
  CONFIG_NETDEV_MULTINIC cfg = true ->
  find_fwddev C cfg ipv6 w = Some fwddev ->
  fwddev <> dev ->
  conversion_applies cfg dev fwddev w = false ->
  let r := ipv6_forward T C cfg dev ipv6 w in
  0 <= result r ->
  result r = OK /\
  ipv6_proto (ram w) ipv6 = IP_PROTO_TCP /\
  d_len (netdevs (final r) dev) = 0 /\
  count_calls is_forward_path (calls r) = 1%nat /\
  count_calls is_free_chain (calls r) = 0%nat /\
  count_calls is_dropstats (calls r) = 0%nat.
Proof.
  intros Hm Hf Hne Hc r. unfold r.
  rewrite (ipv6_forward_to_other_device T C cfg dev fwddev ipv6 w Hm Hf Hne Hc).
  unfold_model. simpl. split_run; eqb_self; intros Hr;
    try (exfalso; apply Hr; reflexivity);
    repeat split; apply Z.eqb_eq; assumption.
Qed.

(** X11: on the way to another device, when the payload is larger than
    the free buffers hold, the copy-in fails after the allocation: no
    forwarding path is called, the chain of every buffer taken is released
    once, ipv6_forward returns -ENOSYS through the drop exit, and the pool
    ends as it started. *)
Theorem ipv6_forward_copyin_failure (dev fwddev : devptr) (ipv6 : Z)
    (w : world) :
  CONFIG_NETDEV_MULTINIC cfg = true ->
  find_fwddev C cfg ipv6 w = Some fwddev ->
  fwddev <> dev ->
  conversion_applies cfg dev fwddev w = false ->
  16 <= UINT_WIDTH T ->
  0 < CONFIG_IOB_BUFSIZE T ->
  let hdrsize := ipv6_hdrsize T cfg (ram w) ipv6 in
  let paysize := d_len (netdevs w dev) - hdrsize in
  let r := ipv6_forward T C cfg dev ipv6 w in
  0 <= hdrsize ->
  d_len (netdevs w dev) < 2 ^ 16 ->
  iob_nfree w <> 0%nat ->
  Z.of_nat (iob_nfree w) * CONFIG_IOB_BUFSIZE T < paysize ->
  result r = - ENOSYS /\
  final r = dropped T cfg dev w /\
  exists chain,
    length chain = iob_nfree w /\
    calls r = [Call_iob_tryalloc false;
               Call_iob_trycopyin (ipv6 + hdrsize) paysize 0;
               Call_iob_free_chain (Some chain);
               Call_ipv6_dropstats].
Proof.
  intros Hm Hf Hne Hc HW HB hdrsize paysize r Hh Hlen Hn Hbig. unfold r.
  rewrite (ipv6_forward_to_other_device T C cfg dev fwddev ipv6 w Hm Hf Hne Hc).
  assert (Hu : to_uint T (d_len (netdevs w dev) - hdrsize) = paysize).
  { apply (to_uint_small T HW). unfold paysize in *. nia. }
  destruct (iob_nfree w) as [|n] eqn:En; [contradiction|].
  destruct (iob_copyin_loop_exhausts T (ram w) n HB (ipv6 + hdrsize) paysize Hbig)
    as [Hfail Hlength].
  pose proof (release_staged_chain w n
                (snd (iob_copyin_loop T n (ram w) (ipv6 + hdrsize) paysize)) En)
    as Hrel.
  rewrite Hlength in Hrel. specialize (Hrel (conj (le_n_S _ _ (Nat.le_0_l n))
                                                  (Nat.le_refl _))).
  apply Z.ltb_ge in Hh.
  unfold forward_other_device, iob_tryalloc, iob_trycopyin, get_d_len, bind,
    gets, emit.
  cbv beta iota zeta. fold hdrsize. rewrite Hh. cbv beta iota zeta.
  rewrite Hu.
  assert (Hp : (0 <? paysize) = true) by (apply Z.ltb_lt; nia).
  rewrite Hp. cbv beta iota zeta. rewrite En. cbv beta iota zeta.
  change (iob_nfree (store_pool n (S (iob_inuse w)) w)) with n.
  change (iob_inuse (store_pool n (S (iob_inuse w)) w)) with (S (iob_inuse w)).
  change (ram (store_pool n (S (iob_inuse w)) w)) with (ram w).
  destruct (iob_copyin_loop T n (ram w) (ipv6 + hdrsize) paysize)
    as [rc chain].
  cbn [fst snd] in Hfail, Hlength, Hrel. subst rc.
  change (- ENOMEM <? 0) with true. cbv beta iota zeta.
  rewrite errout_with_iob_run.
  unfold result, final, calls. cbn [fst snd app].
  rewrite Hlength, Hrel.
  split; [reflexivity|]. split; [reflexivity|].
  exists chain. split; [assumption|reflexivity].
Qed.

(** X14: on the way to another device, when the payload fits the free
    buffers, the third call hands the forwarding path of the protocol a
    chain that holds exactly the bytes from the end of the headers to the
    end of the frame, in order. *)
Theorem ipv6_forward_staged_bytes (dev fwddev : devptr) (ipv6 : Z) (w : world) :
  CONFIG_NETDEV_MULTINIC cfg = true ->
  find_fwddev C cfg ipv6 w = Some fwddev ->
  fwddev <> dev ->
  conversion_applies cfg dev fwddev w = false ->
  16 <= UINT_WIDTH T ->
  0 < CONFIG_IOB_BUFSIZE T ->
  let hdrsize := ipv6_hdrsize T cfg (ram w) ipv6 in
  let paysize := d_len (netdevs w dev) - hdrsize in
  let r := ipv6_forward T C cfg dev ipv6 w in
  0 <= hdrsize < d_len (netdevs w dev) ->
  d_len (netdevs w dev) < 2 ^ 16 ->
  paysize <= Z.of_nat (iob_nfree w) * CONFIG_IOB_BUFSIZE T ->
  exists chain,
    nth_error (calls r) 2 = Some (forward_call w ipv6 (Some chain)) /\
    concat chain = read_bytes (ram w) (ipv6 + hdrsize) paysize.
Proof.
  intros Hm Hf Hne Hc HW HB hdrsize paysize r Hh Hlen Hfit. unfold r.
  rewrite (ipv6_forward_to_other_device T C cfg dev fwddev ipv6 w Hm Hf Hne Hc).
  assert (Hu : to_uint T (d_len (netdevs w dev) - hdrsize) = paysize).
  { apply (to_uint_small T HW). unfold paysize in *. lia. }
  assert (Hp : (0 <? paysize) = true) by (apply Z.ltb_lt; unfold paysize; lia).
  destruct (iob_nfree w) as [|n] eqn:En.
  { exfalso. apply Z.ltb_lt in Hp. simpl in Hfit. lia. }
  pose proof (iob_copyin_loop_fits T (ram w) n HB (ipv6 + hdrsize) paysize Hfit)
    as Hok.
  pose proof (iob_copyin_loop_bytes T (ram w) n HB (ipv6 + hdrsize) paysize
                ltac:(unfold paysize; lia) Hok) as Hbytes.
  destruct Hh as [Hh _]. apply Z.ltb_ge in Hh.
  unfold forward_other_device, iob_tryalloc, iob_trycopyin, get_d_len, bind,
    gets, emit.
  cbv beta iota zeta. fold hdrsize. rewrite Hh. cbv beta iota zeta.
  rewrite Hu, Hp. cbv beta iota zeta. rewrite En. cbv beta iota zeta.
  change (iob_nfree (store_pool n (S (iob_inuse w)) w)) with n.
  change (iob_inuse (store_pool n (S (iob_inuse w)) w)) with (S (iob_inuse w)).
  change (ram (store_pool n (S (iob_inuse w)) w)) with (ram w).
  destruct (iob_copyin_loop T n (ram w) (ipv6 + hdrsize) paysize)
    as [rc chain].
  cbn [fst snd] in Hok, Hbytes. subst rc.
  change (OK <? 0) with false. cbv beta iota zeta.
  match goal with
  | |- context [forward_dispatch T C cfg dev ipv6 (Some chain) ?w1] =>
      destruct (forward_dispatch_head T C cfg dev ipv6 (Some chain) w1)
        as [tr Htr];
      change (ram w1) with (ram w) in Htr;
      unfold calls in Htr;
      destruct (forward_dispatch T C cfg dev ipv6 (Some chain) w1)
        as [[a b] t]
  end.
  cbn [snd] in Htr. subst t.
  exists chain. split; [reflexivity|assumption].
Qed.

(** A failing run ends in the state of the entry or in the state the label
    drop leaves. *)
Lemma ipv6_forward_failure_state (dev : devptr) (ipv6 : Z) (w : world) :
  tcp_forward_fails_clean C ->
  let r := ipv6_forward T C cfg dev ipv6 w in
  result r < 0 ->
  final r = w \/ final r = dropped T cfg dev w.
Proof.
  intros Hclean r Hr.
  destruct (find_fwddev C cfg ipv6 w) as [fwddev|] eqn:Hf.
  2:{ left. unfold r, ipv6_forward, bind, gets. rewrite Hf. reflexivity. }
  destruct (CONFIG_NETDEV_MULTINIC cfg && negb (fwddev =? dev)%nat) eqn:Hx.
  - apply andb_prop in Hx as [Hm Hne].
    apply negb_true_iff, Nat.eqb_neq in Hne.
    destruct (conversion_applies cfg dev fwddev w) eqn:Hc.
    + exfalso. pose proof (conversion_applies_ok T C cfg dev fwddev ipv6 w Hc)
        as Hok.
      revert Hr Hok. unfold r, ipv6_forward, bind, gets, result.
      rewrite Hf, Hm. apply Nat.eqb_neq in Hne. rewrite Hne.
      cbv beta iota zeta. cbn [andb negb].
      destruct (ipv6_packet_conversion T C cfg dev fwddev ipv6 w)
        as [[rc w1] t1].
      cbn [fst]. intros Hr ->. revert Hr.
      change (OK <? 0) with false. cbv beta iota zeta. unfold pure, OK.
      cbn [fst]. lia.
    + right.
      pose proof (ipv6_forward_to_other_device T C cfg dev fwddev ipv6 w
                    Hm Hf Hne Hc) as E.
      fold r in E.
      destruct (forward_other_device_failure T C cfg dev ipv6
                  (- EPFNOSUPPORT) w Hclean) as (_ & H2 & _).
      { rewrite <- E. exact Hr. }
      rewrite E. exact H2.
  - left. revert Hr. unfold r, ipv6_forward, bind, gets, result, final.
    rewrite Hf, Hx. cbv beta iota zeta.
    destruct (CONFIG_NET_6LOWPAN cfg); [|intros _; reflexivity].
    destruct (conversion_applies cfg dev dev w) eqn:Hc.
    + pose proof (conversion_applies_ok T C cfg dev dev ipv6 w Hc) as Hok.
      revert Hok. unfold result.
      destruct (ipv6_packet_conversion T C cfg dev dev ipv6 w) as [[rc w1] t1].
      cbn [fst]. intros ->. change (OK <? 0) with false. unfold pure, OK.
      cbn [fst]. lia.
    + rewrite (conversion_not_applicable T C cfg dev dev ipv6 w Hc).
      intros _. reflexivity.
Qed.

(** X12: a run of ipv6_forward that fails (the TCP forwarding path leaving
    the state alone when it fails) writes nothing but dev->d_len and the
    drop counters: the frame memory, the link type of dev, every other
    device and the buffer pool are as they were. *)
Theorem ipv6_forward_failure_preserves (dev : devptr) (ipv6 : Z) (w : world) :
  tcp_forward_fails_clean C ->
  let r := ipv6_forward T C cfg dev ipv6 w in
  result r < 0 ->
  ram (final r) = ram w /\
  d_lltype (netdevs (final r) dev) = d_lltype (netdevs w dev) /\
  (forall p, p <> dev -> netdevs (final r) p = netdevs w p) /\
  iob_nfree (final r) = iob_nfree w /\
  iob_inuse (final r) = iob_inuse w.
Proof.
  intros Hclean r Hr.
  destruct (ipv6_forward_failure_state dev ipv6 w Hclean Hr) as [E|E];
    fold r in E; rewrite E.
  - repeat split.
  - unfold dropped, store_d_len.
    destruct (CONFIG_NET_STATISTICS cfg); cbn; rewrite Nat.eqb_refl;
      repeat split; intros p Hp; apply Nat.eqb_neq in Hp; rewrite Hp;
      reflexivity.
Qed.

End StagingOutcomes.

(** ** The forwarding paths that are not supported *)

Section Unsupported.

Variable T : target.
Variable C : collaborators.
Variable cfg : config.

(** With the TCP forwarding path of the spec the dispatch fails, releases
    the chain it was given and drops. *)
Lemma forward_dispatch_unsupported (dev : devptr) (ipv6 : Z)
    (iob : option iob_chain) (w : world) :
  tcp_ipv6_forward C = tcp_ipv6_forward_unsupported ->
  forward_dispatch T C cfg dev ipv6 iob w =
    (- ENOSYS, dropped T cfg dev (release_chain iob w),
     [forward_call w ipv6 iob; Call_iob_free_chain iob; Call_ipv6_dropstats]).
Proof.
  intros Hstub.
  apply (forward_dispatch_failure T C cfg dev ipv6 iob w
           (unsupported_fails_clean C Hstub)).
  unfold forward_dispatch, ipv6_dev_forward, bind, gets, emit, pure, result.
  rewrite Hstub. unfold tcp_ipv6_forward_unsupported. cbv beta iota zeta.
  destruct (ipv6_proto (ram w) ipv6 =? IP_PROTO_TCP); cbv beta iota zeta;
    change (0 <=? - ENOSYS) with false; cbv beta iota zeta;
    rewrite errout_with_iob_run; reflexivity.
Qed.

(** C5: on the way to another device with no conversion, ipv6_dev_forward
    fails with -ENOSYS and so does the TCP forwarding path, as the spec
    requires of it.  For every such frame ipv6_forward returns -ENOSYS with
    dev->d_len zero, the IPv6 drop counter incremented once, the chain
    released at most once and the pool where it started.  When the
    classifier knows the protocol and the payload is staged, the run is
    exactly: the staging, one call of the forwarding path of the protocol
    with the staged chain (null for an empty payload, else holding the
    payload bytes), one iob_free_chain of that same chain, and
    ipv6_dropstats. *)
Theorem ipv6_forward_other_device_unsupported (dev fwddev : devptr) (ipv6 : Z)
    (w : world) :
  CONFIG_NETDEV_MULTINIC cfg = true ->
  CONFIG_NET_STATISTICS cfg = true ->
  tcp_ipv6_forward C = tcp_ipv6_forward_unsupported ->
  find_fwddev C cfg ipv6 w = Some fwddev ->
  fwddev <> dev ->
  conversion_applies cfg dev fwddev w = false ->
  let hdrsize := ipv6_hdrsize T cfg (ram w) ipv6 in
  let paysize := d_len (netdevs w dev) - hdrsize in
  let r := ipv6_forward T C cfg dev ipv6 w in
  (forall iob w0,
     ipv6_dev_forward dev ipv6 iob w0
       = (- ENOSYS, w0, [Call_ipv6_dev_forward iob])) /\
  result r = - ENOSYS /\
  d_len (netdevs (final r) dev) = 0 /\
  ipv6_drop (g_netstats (final r)) = stat_incr T (ipv6_drop (g_netstats w)) /\
  (count_calls is_free_chain (calls r) <= 1)%nat /\
  (forall iob,
     In (Call_tcp_ipv6_forward iob) (calls r) \/
     In (Call_ipv6_dev_forward iob) (calls r) ->
     filter is_free_chain (calls r) = [Call_iob_free_chain iob]) /\
  iob_nfree (final r) = iob_nfree w /\
  iob_inuse (final r) = iob_inuse w /\
  (0 <= hdrsize ->
   paysize = 0 ->
   calls r = [forward_call w ipv6 None; Call_iob_free_chain None;
              Call_ipv6_dropstats]) /\
  (16 <= UINT_WIDTH T ->
   0 < CONFIG_IOB_BUFSIZE T ->
   0 <= hdrsize ->
   0 < paysize ->
   d_len (netdevs w dev) < 2 ^ 16 ->
   paysize <= Z.of_nat (iob_nfree w) * CONFIG_IOB_BUFSIZE T ->
   exists chain,
     concat chain = read_bytes (ram w) (ipv6 + hdrsize) paysize /\
     calls r = [Call_iob_tryalloc false;
                Call_iob_trycopyin (ipv6 + hdrsize) paysize 0;
                forward_call w ipv6 (Some chain);
                Call_iob_free_chain (Some chain);
                Call_ipv6_dropstats]).
Proof.
  intros Hm Hs Hstub Hf Hne Hc hdrsize paysize r.
  split; [intros iob w0; reflexivity|].
  pose proof (ipv6_forward_to_other_device T C cfg dev fwddev ipv6 w
                Hm Hf Hne Hc) as E.
  fold r in E.
  pose proof (forward_other_device_unsupported T C cfg dev ipv6
                (- EPFNOSUPPORT) w Hstub) as Hres.
  destruct (forward_other_device_failure T C cfg dev ipv6 (- EPFNOSUPPORT) w
              (unsupported_fails_clean C Hstub)) as (H1 & H2 & H3 & H4 & H5).
  { rewrite Hres. reflexivity. }
  rewrite <- E in H1, H2, H4, H5.
  split; [assumption|].
  split; [rewrite H2; apply dropped_d_len|].
  split; [rewrite H2; apply (dropped_counters T cfg dev w Hs)|].
  split; [assumption|]. split; [assumption|].
  split; [rewrite H2; apply dropped_pool|].
  split; [rewrite H2; apply dropped_pool|].
  split.
  - (* an empty payload *)
    intros Hh Hp. rewrite E.
    assert (Hu : to_uint T (d_len (netdevs w dev) - hdrsize) = 0).
    { fold paysize. rewrite Hp. unfold to_uint. apply Zmod_0_l. }
    rewrite (stage_empty_payload T C cfg dev ipv6 (- EPFNOSUPPORT) w Hh Hu).
    rewrite (forward_dispatch_unsupported dev ipv6 None w Hstub).
    reflexivity.
  - (* a payload that is staged *)
    intros HW HB Hh Hpos Hlen Hfit. rewrite E.
    assert (Hu : to_uint T (d_len (netdevs w dev) - hdrsize) = paysize).
    { apply (to_uint_small T HW). unfold paysize in *. lia. }
    assert (Hp : (0 <? paysize) = true) by (apply Z.ltb_lt; exact Hpos).
    destruct (iob_nfree w) as [|n] eqn:En.
    { exfalso. simpl in Hfit. lia. }
    pose proof (iob_copyin_loop_fits T (ram w) n HB (ipv6 + hdrsize) paysize
                  Hfit) as Hok.
    pose proof (iob_copyin_loop_bytes T (ram w) n HB (ipv6 + hdrsize) paysize
                  ltac:(lia) Hok) as Hbytes.
    apply Z.ltb_ge in Hh.
    unfold forward_other_device, iob_tryalloc, iob_trycopyin, get_d_len, bind,
      gets, emit.
    cbv beta iota zeta. fold hdrsize. rewrite Hh. cbv beta iota zeta.
    rewrite Hu, Hp. cbv beta iota zeta. rewrite En. cbv beta iota zeta.
    change (iob_nfree (store_pool n (S (iob_inuse w)) w)) with n.
    change (iob_inuse (store_pool n (S (iob_inuse w)) w)) with (S (iob_inuse w)).
    change (ram (store_pool n (S (iob_inuse w)) w)) with (ram w).
    destruct (iob_copyin_loop T n (ram w) (ipv6 + hdrsize) paysize)
      as [rc chain].
    cbn [fst snd] in Hok, Hbytes. subst rc.
    change (OK <? 0) with false. cbv beta iota zeta.
    rewrite (forward_dispatch_unsupported dev ipv6 (Some chain) _ Hstub).
    exists chain. split; [assumption|reflexivity].
Qed.

End Unsupported.

(** ** The claims at concrete frames *)

(** C1: a TCP frame whose header length field, 12 bytes after the 40 bytes
    of the IPv6 header, says 5 words.  On a target with 4-byte pointers
    ipv6_hdrsize reads byte 172 instead, which belongs to the payload, and
    returns 100 where IPv6_HDRLEN + 4 * 5 is 60. *)
Theorem ipv6_hdrsize_tcp_reads_beyond_header :
  ipv6_proto (ram_of tcp_frame) 0 = IP_PROTO_TCP /\
  read8 (ram_of tcp_frame) (0 + IPv6_HDRLEN + tcp_hdr_tcpoffset) / 16 = 5 /\
  ipv6_hdrsize target32 cfg_multinic (ram_of tcp_frame) 0 = 100 /\
  ipv6_hdrsize target32 cfg_multinic (ram_of tcp_frame) 0
    <> IPv6_HDRLEN + 4 * 5.
Proof. vm_compute. repeat split; discriminate. Qed.

(** C4: a UDP frame with 15 bytes of payload on its way to another device,
    the pool empty.  The allocation is tried once and fails, nothing is
    taken from the pool, and ipv6_forward returns -ENOSYS, not -ENOMEM. *)
Theorem ipv6_forward_alloc_failure_returns_ENOSYS :
  let w := ethernet_world udp_frame 0 in
  let r := ipv6_forward target32 (resolving (Some 1%nat)) cfg_multinic 0%nat 0 w in
  calls r = [Call_iob_tryalloc false; Call_iob_free_chain None;
             Call_ipv6_dropstats] /\
  result r = - ENOSYS /\
  result r <> - ENOMEM /\
  iob_nfree (final r) = iob_nfree w /\
  iob_inuse (final r) = iob_inuse w.
Proof. vm_compute. repeat split; discriminate. Qed.

(** A UDP frame on a single device: with no route, and with the route back
    to the Ethernet device, ipv6_forward fails without passing
    ipv6_dropstats, dev->d_len stays 63 and the counters stay as they
    were. *)
Lemma ipv6_forward_failure_exits_counterexample :
  let w := ethernet_world udp_frame 4 in
  let r1 := ipv6_forward target32 (resolving None) cfg_single 0%nat 0 w in
  let r2 := ipv6_forward target32 (resolving (Some 0%nat)) cfg_single 0%nat 0 w in
  (result r1 < 0 /\ count_calls is_dropstats (calls r1) = 0%nat /\
   d_len (netdevs (final r1) 0%nat) = 63 /\ g_netstats (final r1) = g_netstats w) /\
  (result r2 < 0 /\ count_calls is_dropstats (calls r2) = 0%nat /\
   d_len (netdevs (final r2) 0%nat) = 63 /\ g_netstats (final r2) = g_netstats w).
Proof. vm_compute. repeat split. Qed.

(** The same frame on its way to another device leaves by the drop exit. *)
Lemma ipv6_forward_failure_exits_witness :
  let w := ethernet_world udp_frame 4 in
  let r := ipv6_forward target32 (resolving (Some 1%nat)) cfg_multinic 0%nat 0 w in
  result r = - ENOSYS /\
  count_calls is_dropstats (calls r) = 1%nat /\
  d_len (netdevs (final r) 0%nat) = 0 /\
  iob_nfree (final r) = 4%nat /\
  iob_inuse (final r) = 0%nat.
Proof.
  intros w r.
  assert (Hclean : tcp_forward_fails_clean (resolving (Some 1%nat)))
    by (intros dev ipv6 iob w0 _; reflexivity).
  assert (Hr : result r < 0) by reflexivity.
  destruct (ipv6_forward_failure_exits target32 (resolving (Some 1%nat))
              cfg_multinic 0%nat 0 w Hclean Hr) as [H|[H|H]].
  - destruct H as [H _]. discriminate H.
  - destruct H as (fwddev & Hf & H & _).
    change (Some 1%nat = Some fwddev) in Hf. injection Hf as <-.
    discriminate H.
  - destruct H as (fwddev & _ & _ & H1 & H2 & H3 & _ & H4 & H5).
    repeat split; assumption.
Defined.

(** A UDP frame of 63 bytes with no route: -ENETUNREACH, and dev->d_len is
    still 63. *)
Lemma ipv6_forward_no_route_counterexample :
  let w := ethernet_world udp_frame 4 in
  let r := ipv6_forward target32 (resolving None) cfg_multinic 0%nat 0 w in
  result r = - ENETUNREACH /\
  d_len (netdevs (final r) 0%nat) = 63 /\
  d_len (netdevs (final r) 0%nat) <> 0.
Proof. vm_compute. repeat split; discriminate. Qed.

(** The same run, by the theorem. *)
Lemma ipv6_forward_no_route_witness :
  let w := ethernet_world udp_frame 4 in
  let r := ipv6_forward target32 (resolving None) cfg_multinic 0%nat 0 w in
  result r = - ENETUNREACH /\
  final r = w /\
  d_len (netdevs (final r) 0%nat) = d_len (netdevs w 0%nat) /\
  calls r = [].
Proof.
  exact (ipv6_forward_no_route target32 (resolving None) cfg_multinic 0%nat 0
           (ethernet_world udp_frame 4) eq_refl).
Defined.

(** A TCP frame on its way to another Ethernet device, with four buffers
    free: the 100 bytes after the header size of the classifier are staged,
    handed to tcp_ipv6_forward, and released. *)
Lemma ipv6_forward_other_device_unsupported_witness :
  let w := ethernet_world tcp_frame 4 in
  let r := ipv6_forward target32 (resolving (Some 1%nat)) cfg_multinic 0%nat 0 w in
  (exists chain,
     concat chain = repeat 255 100 /\
     calls r = [Call_iob_tryalloc false;
                Call_iob_trycopyin 100 100 0;
                Call_tcp_ipv6_forward (Some chain);
                Call_iob_free_chain (Some chain);
                Call_ipv6_dropstats]) /\
  result r = - ENOSYS /\
  d_len (netdevs (final r) 0%nat) = 0 /\
  ipv6_drop (g_netstats (final r)) = 1 /\
  iob_nfree (final r) = 4%nat /\
  iob_inuse (final r) = 0%nat.
Proof.
  intros w r.
  assert (Hne : 1%nat <> 0%nat) by discriminate.
  assert (HW : 16 <= UINT_WIDTH target32) by discriminate.
  assert (Hh : 0 <= ipv6_hdrsize target32 cfg_multinic (ram w) 0)
    by discriminate.
  assert (Hfit : d_len (netdevs w 0%nat)
                 - ipv6_hdrsize target32 cfg_multinic (ram w) 0
                 <= Z.of_nat (iob_nfree w) * CONFIG_IOB_BUFSIZE target32)
    by discriminate.
  pose proof (ipv6_forward_other_device_unsupported target32
                (resolving (Some 1%nat)) cfg_multinic 0%nat 1%nat 0 w
                eq_refl eq_refl eq_refl eq_refl Hne eq_refl)
    as (_ & H1 & H2 & H3 & _ & _ & H5 & H6 & _ & H7).
  destruct (H7 HW eq_refl Hh eq_refl eq_refl Hfit) as (chain & Hb & Ht).
  split; [exists chain; split; [exact Hb|exact Ht]|].
  repeat split; assumption.
Defined.

(** An ICMPv6 frame on its way to the IEEE 802.15.4 device. *)
Lemma ipv6_forward_conversion_unsupported_proto_witness :
  let w := lowpan_world icmpv6_frame 4 in
  let r := ipv6_forward target32 (resolving (Some 1%nat)) cfg_multinic 0%nat 0 w in
  result r = OK /\
  d_len (netdevs (final r) 0%nat) = 0 /\
  ipv6_drop (g_netstats (final r)) = 1 /\
  calls r = [].
Proof.
  intros w r.
  assert (Htcp : ipv6_proto (ram w) 0 <> IP_PROTO_TCP) by discriminate.
  assert (Hudp : ipv6_proto (ram w) 0 <> IP_PROTO_UDP) by discriminate.
  pose proof (ipv6_forward_conversion_unsupported_proto target32
                (resolving (Some 1%nat)) cfg_multinic 0%nat 1%nat 0 w
                eq_refl eq_refl eq_refl eq_refl eq_refl Htcp Hudp)
    as (H1 & H2 & H3 & _ & _ & _ & H4 & _).
  repeat split; assumption.
Defined.

(** A UDP frame on a single Ethernet device that is its own route: the
    link needs no conversion and ipv6_forward returns -ENOSYS, not OK. *)
Lemma ipv6_forward_single_device_counterexample :
  let w := ethernet_world udp_frame 4 in
  let r := ipv6_forward target32 (resolving (Some 0%nat)) cfg_single 0%nat 0 w in
  CONFIG_NETDEV_MULTINIC cfg_single = false /\
  ipv6_proto (ram w) 0 = IP_PROTO_UDP /\
  needs_conversion cfg_single (d_lltype (netdevs w 0%nat)) = false /\
  result r = - ENOSYS /\
  result r <> OK.
Proof. vm_compute. repeat split; discriminate. Qed.

(** The same run, by the theorem. *)
Lemma ipv6_forward_single_device_unconverted_witness :
  let w := ethernet_world udp_frame 4 in
  let r := ipv6_forward target32 (resolving (Some 0%nat)) cfg_single 0%nat 0 w in
  result r = - ENOSYS /\
  final r = w /\
  d_len (netdevs (final r) 0%nat) = d_len (netdevs w 0%nat) /\
  g_netstats (final r) = g_netstats w /\
  calls r = [].
Proof.
  exact (ipv6_forward_single_device_unconverted target32
           (resolving (Some 0%nat)) cfg_single 0%nat 0
           (ethernet_world udp_frame 4) eq_refl eq_refl eq_refl).
Defined.

(** A UDP frame of its 48 header bytes alone, on its way to another
    device. *)
Lemma ipv6_forward_stages_payload_witness :
  let w := ethernet_world udp_headers_only 4 in
  let r := ipv6_forward target32 (resolving (Some 1%nat)) cfg_multinic 0%nat 0 w in
  d_len (netdevs w 0%nat) - ipv6_hdrsize target32 cfg_multinic (ram w) 0 = 0 /\
  count_calls is_tryalloc (calls r) = 0%nat /\
  hd_error (calls r) = Some (Call_ipv6_dev_forward None).
Proof.
  intros w r.
  assert (Hne : 1%nat <> 0%nat) by discriminate.
  assert (HW : 16 <= UINT_WIDTH target32) by discriminate.
  assert (Hh : 0 <= ipv6_hdrsize target32 cfg_multinic (ram w) 0
               <= d_len (netdevs w 0%nat)) by (split; discriminate).
  pose proof (ipv6_forward_stages_payload target32 (resolving (Some 1%nat))
                cfg_multinic 0%nat 1%nat 0 w
                eq_refl eq_refl Hne eq_refl HW Hh eq_refl) as [H _].
  split; [reflexivity|]. exact (H eq_refl).
Defined.


(** A UDP frame cut to its 40 bytes of IPv6 header: the copy-in is asked
    for 40 - 48 + 2^32 bytes. *)
Lemma ipv6_forward_truncated_frame_wraps_witness :
  let w := ethernet_world udp_truncated 4 in
  let r := ipv6_forward target32 (resolving (Some 1%nat)) cfg_multinic 0%nat 0 w in
  d_len (netdevs w 0%nat) = 40 /\
  ipv6_hdrsize target32 cfg_multinic (ram w) 0 = 48 /\
  nth_error (calls r) 1 = Some (Call_iob_trycopyin 48 4294967288 0).
Proof.
  intros w r.
  assert (Hne : 1%nat <> 0%nat) by discriminate.
  assert (HW : 16 <= UINT_WIDTH target32) by discriminate.
  assert (Hlen : 0 <= d_len (netdevs w 0%nat)
                 < ipv6_hdrsize target32 cfg_multinic (ram w) 0)
    by (split; [discriminate|reflexivity]).
  pose proof (ipv6_forward_truncated_frame_wraps target32
                (resolving (Some 1%nat)) cfg_multinic 0%nat 1%nat 0 w
                eq_refl eq_refl Hne eq_refl HW Hlen) as (_ & _ & _ & H & _).
  split; [reflexivity|]. split; [reflexivity|]. apply H. discriminate.
Defined.

(** The classifier on the UDP, ICMPv6 and protocol 59 frames. *)
Lemma ipv6_hdrsize_fixed_headers_witness :
  ipv6_hdrsize target32 cfg_multinic (ram_of udp_frame) 0 = 48 /\
  ipv6_hdrsize target32 cfg_multinic (ram_of icmpv6_frame) 0 = 44 /\
  ipv6_hdrsize target32 cfg_multinic (ram_of unknown_frame) 0 = - 93.
Proof.
  assert (H1 : ipv6_proto (ram_of unknown_frame) 0 <> IP_PROTO_TCP) by discriminate.
  assert (H2 : ipv6_proto (ram_of unknown_frame) 0 <> IP_PROTO_UDP) by discriminate.
  assert (H3 : ipv6_proto (ram_of unknown_frame) 0 <> IP_PROTO_ICMP6) by discriminate.
  split; [|split].
  - exact (proj1 (ipv6_hdrsize_fixed_headers target32 cfg_multinic
                    (ram_of udp_frame) 0) eq_refl eq_refl).
  - exact (proj1 (proj2 (ipv6_hdrsize_fixed_headers target32 cfg_multinic
                           (ram_of icmpv6_frame) 0)) eq_refl eq_refl).
  - exact (proj2 (proj2 (ipv6_hdrsize_fixed_headers target32 cfg_multinic
                           (ram_of unknown_frame) 0)) H1 H2 H3).
Defined.

(** ** The further properties at concrete frames *)

(** The classifier on the TCP frame of the 32-bit target. *)
Lemma ipv6_hdrsize_result_witness :
  IPv6_HDRLEN <= ipv6_hdrsize target32 cfg_multinic (ram_of tcp_frame) 0 <= 100 /\
  ipv6_hdrsize target32 cfg_multinic (ram_of tcp_frame) 0 mod 4 = 0.
Proof.
  assert (HW : 16 <= UINT_WIDTH target32) by discriminate.
  destruct (ipv6_hdrsize_result target32 cfg_multinic (ram_of tcp_frame) 0 HW)
    as [H|H]; [discriminate H|exact H].
Defined.

(** A UDP frame in the build without UDP. *)
Lemma ipv6_hdrsize_configured_out_witness :
  ipv6_hdrsize target32 cfg_no_udp (ram_of udp_frame) 0 = - EPROTONOSUPPORT.
Proof.
  exact (proj1 (proj2 (ipv6_hdrsize_configured_out target32 cfg_no_udp
                         (ram_of udp_frame) 0)) eq_refl eq_refl).
Defined.

(** A TCP frame on its way to the IEEE 802.15.4 device. *)
Lemma ipv6_forward_converted_witness :
  let w := lowpan_world tcp_frame 4 in
  let r := ipv6_forward target32 (resolving (Some 1%nat)) cfg_multinic 0%nat 0 w in
  r = (OK, store_d_len 0%nat 0 w, [Call_sixlowpan_tcp_send]) /\
  d_len (netdevs (final r) 0%nat) = 0.
Proof.
  intros w r.
  pose proof (ipv6_forward_converted target32 (resolving (Some 1%nat))
                cfg_multinic 0%nat 1%nat 0 w eq_refl eq_refl eq_refl)
    as (H1 & _ & _ & H2 & _).
  split; [exact (H1 eq_refl eq_refl)|exact H2].
Defined.

(** A UDP frame on a single IEEE 802.15.4 device that is its own route. *)
Lemma ipv6_forward_same_device_calls_witness :
  let w := world_of NET_LL_IEEE802154 NET_LL_ETHERNET udp_frame 4 in
  let r := ipv6_forward target32 (resolving (Some 0%nat)) cfg_single 0%nat 0 w in
  calls r = [Call_sixlowpan_udp_send] /\
  forallb is_sender (calls r) = true.
Proof.
  intros w r. split; [reflexivity|].
  apply (ipv6_forward_same_device_calls target32 (resolving (Some 0%nat))
           cfg_single 0%nat 0 w).
  intros fwddev Hf. change (Some 0%nat = Some fwddev) in Hf.
  injection Hf as <-. reflexivity.
Defined.

(** An empty frame on a single IEEE 802.15.4 device that is its own
    route. *)
Lemma ipv6_forward_empty_frame_same_device_witness :
  let w := world_of NET_LL_IEEE802154 NET_LL_ETHERNET [] 4 in
  ipv6_forward target32 (resolving (Some 0%nat)) cfg_single 0%nat 0 w
    = (- ENOSYS, w, []).
Proof.
  exact (ipv6_forward_empty_frame_same_device target32 (resolving (Some 0%nat))
           cfg_single 0%nat 0%nat 0
           (world_of NET_LL_IEEE802154 NET_LL_ETHERNET [] 4)
           eq_refl eq_refl eq_refl).
Defined.

(** A TCP frame on its way to another device, the TCP forwarding path
    accepting it. *)
Lemma ipv6_forward_accepted_witness :
  let w := ethernet_world tcp_frame 4 in
  let r := ipv6_forward target32 (accepting (Some 1%nat)) cfg_multinic 0%nat 0 w in
  result r = OK /\
  d_len (netdevs (final r) 0%nat) = 0 /\
  count_calls is_free_chain (calls r) = 0%nat /\
  count_calls is_dropstats (calls r) = 0%nat.
Proof.
  intros w r.
  assert (Hne : 1%nat <> 0%nat) by discriminate.
  assert (Hr : 0 <= result r) by discriminate.
  pose proof (ipv6_forward_accepted target32 (accepting (Some 1%nat))
                cfg_multinic 0%nat 1%nat 0 w eq_refl eq_refl Hne eq_refl Hr)
    as (H1 & _ & H2 & _ & H3 & H4).
  repeat split; assumption.
Defined.

(** A UDP frame with 412 bytes after its headers on its way to another
    device, with two buffers of 196 bytes free. *)
Lemma ipv6_forward_copyin_failure_witness :
  let w := ethernet_world udp_long_frame 2 in
  let r := ipv6_forward target32 (resolving (Some 1%nat)) cfg_multinic 0%nat 0 w in
  result r = - ENOSYS /\
  count_calls is_forward_path (calls r) = 0%nat /\
  iob_nfree (final r) = 2%nat.
Proof.
  intros w r.
  assert (Hne : 1%nat <> 0%nat) by discriminate.
  assert (HW : 16 <= UINT_WIDTH target32) by discriminate.
  assert (Hh : 0 <= ipv6_hdrsize target32 cfg_multinic (ram w) 0) by discriminate.
  assert (Hn : iob_nfree w <> 0%nat) by discriminate.
  pose proof (ipv6_forward_copyin_failure target32 (resolving (Some 1%nat))
                cfg_multinic 0%nat 1%nat 0 w eq_refl eq_refl Hne eq_refl HW
                eq_refl Hh eq_refl Hn eq_refl) as (H1 & H2 & chain & _ & H3).
  fold r in H1, H2, H3.
  split; [exact H1|]. split; [rewrite H3; reflexivity|].
  rewrite H2. reflexivity.
Defined.

(** A UDP frame with 15 bytes after its headers on its way to another
    device: the chain handed over holds those bytes. *)
Lemma ipv6_forward_staged_bytes_witness :
  let w := ethernet_world udp_frame 4 in
  let r := ipv6_forward target32 (resolving (Some 1%nat)) cfg_multinic 0%nat 0 w in
  exists chain,
    nth_error (calls r) 2 = Some (Call_ipv6_dev_forward (Some chain)) /\
    concat chain = [0; 0; 0; 0; 0; 0; 0; 0; 0; 0; 0; 0; 1; 2; 3].
Proof.
  intros w r.
  assert (Hne : 1%nat <> 0%nat) by discriminate.
  assert (HW : 16 <= UINT_WIDTH target32) by discriminate.
  assert (Hh : 0 <= ipv6_hdrsize target32 cfg_multinic (ram w) 0
               < d_len (netdevs w 0%nat)) by (split; [discriminate|reflexivity]).
  assert (Hfit : d_len (netdevs w 0%nat)
                 - ipv6_hdrsize target32 cfg_multinic (ram w) 0
                 <= Z.of_nat (iob_nfree w) * CONFIG_IOB_BUFSIZE target32)
    by discriminate.
  destruct (ipv6_forward_staged_bytes target32 (resolving (Some 1%nat))
              cfg_multinic 0%nat 1%nat 0 w eq_refl eq_refl Hne eq_refl HW
              eq_refl Hh eq_refl Hfit) as (chain & H1 & H2).
  exists chain. split; [exact H1|exact H2].
Defined.

(** A frame of protocol 59 on its way to another device: the failing run
    leaves the frame memory and the pool as they were. *)
Lemma ipv6_forward_failure_preserves_witness :
  let w := ethernet_world unknown_frame 4 in
  let r := ipv6_forward target32 (resolving (Some 1%nat)) cfg_multinic 0%nat 0 w in
  ram (final r) = ram w /\
  d_lltype (netdevs (final r) 0%nat) = NET_LL_ETHERNET /\
  iob_nfree (final r) = 4%nat /\
  iob_inuse (final r) = 0%nat.
Proof.
  intros w r.
  assert (Hclean : tcp_forward_fails_clean (resolving (Some 1%nat)))
    by (intros dev ipv6 iob w0 _; reflexivity).
  assert (Hr : result r < 0) by reflexivity.
  pose proof (ipv6_forward_failure_preserves target32 (resolving (Some 1%nat))
                cfg_multinic 0%nat 0 w Hclean Hr) as (H1 & H2 & _ & H3 & H4).
  repeat split; assumption.
Defined.
